(** * Redfire gateway: signalling core

    A shallow embedding of the signalling code of the gateway
    (LAPD/Q.931 D-channel handler, NFAS manager, SIGTRAN ISUP handler,
    ISUP to SIP-T translation, SIP handler) and the properties of it that
    the specification states.

    Conventions.  A Node [Buffer] is a list of octets ([Z], each in
    [0, 256)).  A JavaScript [number] that the code only uses as an integer
    is a [Z]; bit operators act on 32-bit integers and are written out in
    [JS].  [undefined] is [None].  An [EventEmitter] is an output trace: the
    events an object emits are appended to a list in its state. *)

From Stdlib Require Import ZArith Lia String Ascii.
From stdpp Require Import base option list gmap strings pretty.

(** ** JavaScript integer operators *)

Module JS.
Local Open Scope Z_scope.

(** ToInt32: the operand conversion of every bit operator. *)
Definition toInt32 (z : Z) : Z := (z + 2 ^ 31) mod 2 ^ 32 - 2 ^ 31.

(** The conversion of a value stored into a [Buffer] slot. *)
Definition toUint8 (z : Z) : Z := z mod 256.

(** [undefined] as an operand of a bit operator, or stored into a buffer. *)
Definition num (v : option Z) : Z := default 0 v.

Definition band (a b : Z) : Z := Z.land (toInt32 a) (toInt32 b).
Definition bor (a b : Z) : Z := Z.lor (toInt32 a) (toInt32 b).
Definition bxor (a b : Z) : Z := Z.lxor (toInt32 a) (toInt32 b).
Definition shl (a n : Z) : Z := toInt32 (Z.shiftl (toInt32 a) (n mod 32)).
Definition shr (a n : Z) : Z := Z.shiftr (toInt32 a) (n mod 32).

(** A number in a template literal. *)
Definition toString (z : Z) : string := pretty z.

(** Truthiness of a number. *)
Definition truthy (z : Z) : bool := negb (z =? 0).

(** [buf.slice(from, to)] for in-range [from <= to]; [to] is clipped. *)
Definition slice {A} (from to : nat) (l : list A) : list A :=
  take (to - from)%nat (drop from l).

(** [buf.readUInt16LE(off)] and the octets [buf.writeUInt16LE] stores. *)
Definition readUInt16LE (data : list Z) (off : nat) : Z :=
  num (data !! off) + 256 * num (data !! S off).
Definition uint16LE (v : Z) : list Z := [v mod 256; (v / 256) mod 256].

Definition octet (b : Z) : Prop := 0 <= b < 256.
Definition octets (l : list Z) : Prop := Forall octet l.

(** All octets, for checking a property of one octet by enumeration. *)
Definition all_octets : list Z := Z.of_nat <$> seq 0 256.
Definition for_octets (f : Z -> bool) : bool := forallb f all_octets.

End JS.

(** ** Results of functions that may throw *)

Inductive Result (A : Type) : Type :=
| Ok (a : A)
| Throw (message : string).
Arguments Ok {A} a.
Arguments Throw {A} message.

(** ** src/protocols/d-channel.ts *)

Module DChannel.
Import JS.
Local Open Scope Z_scope.

Inductive DChannelMode := FAS | NFAS.

Inductive DChannelState :=
| DOWN
| ESTABLISHING
| ESTABLISHED
| MULTIPLE_FRAME_ESTABLISHED
| TEI_ASSIGNED
| AWAITING_ESTABLISHMENT
| AWAITING_RELEASE.

Record DChannelConfig := {
  mode : DChannelMode;
  spanId : Z;
  channelId : Z;
  tei : Z;
  sapi : Z;
  ces : Z;
  primaryInterface : option bool;
  backupInterface : option bool;
  interfaceGroup : option Z;
  maxRetransmissions : Z;
  t200Timer : Z;
  t201Timer : Z;
  t202Timer : Z;
  t203Timer : Z;
  n200Counter : Z;
  n201Counter : Z
}.

Inductive FrameType := FrameI | FrameS | FrameU.
Inductive SupervisoryType := RR | RNR | REJ | SREJ.
Inductive UnnumberedType := SABME | DM | UI | DISC | UA | FRMR | XID.

Record Address := {
  a_sapi : Z;
  a_cr : bool;
  a_ea0 : bool;
  a_tei : Z;
  a_ea1 : bool
}.

(** The control field as the interface declares it: the fields a frame kind
    does not use are [undefined]. *)
Record Control := {
  c_type : FrameType;
  ns : option Z;
  nr : option Z;
  pf : option bool;
  supervisory : option SupervisoryType;
  unnumbered : option UnnumberedType
}.

Record LAPDFrame := {
  address : Address;
  control : Control;
  information : option (list Z);
  fcs : Z
}.

Record CallReference := {
  cr_length : nat;
  cr_flag : bool;
  cr_value : Z
}.

(** Only [id] and [data] are ever written by the codec. *)
Record Q931InformationElement := {
  ie_id : Z;
  ie_data : list Z
}.

Record Q931Message := {
  protocolDiscriminator : Z;
  callReference : CallReference;
  messageType : option Z;
  informationElements : list Q931InformationElement
}.

#[global] Instance FrameType_eq_dec : EqDecision FrameType.
Proof. solve_decision. Defined.
#[global] Instance SupervisoryType_eq_dec : EqDecision SupervisoryType.
Proof. solve_decision. Defined.
#[global] Instance UnnumberedType_eq_dec : EqDecision UnnumberedType.
Proof. solve_decision. Defined.
#[global] Instance DChannelState_eq_dec : EqDecision DChannelState.
Proof. solve_decision. Defined.
#[global] Instance DChannelMode_eq_dec : EqDecision DChannelMode.
Proof. solve_decision. Defined.

(** *** calculateFCS *)

Definition fcs_shift (fcs : Z) : Z :=
  band (if truthy (band fcs 0x8000)
        then bxor (shl fcs 1) 0x1021
        else shl fcs 1) 0xFFFF.

Definition fcs_octet (fcs b : Z) : Z :=
  Nat.iter 8 fcs_shift (bxor fcs (shl b 8)).

Definition calculateFCS (data : list Z) : Z :=
  bxor (fold_left fcs_octet data 0xFFFF) 0xFFFF.

(** *** parseLAPDFrame *)

Definition supervisoryOf (sType : Z) : option SupervisoryType :=
  [RR; RNR; REJ; SREJ] !! Z.to_nat sType.

Definition unnumberedTypes (uType : Z) : option UnnumberedType :=
  if uType =? 0x6F then Some SABME
  else if uType =? 0x0F then Some DM
  else if uType =? 0x03 then Some UI
  else if uType =? 0x43 then Some DISC
  else if uType =? 0x63 then Some UA
  else if uType =? 0x87 then Some FRMR
  else if uType =? 0xAF then Some XID
  else None.

Definition parseAddress (addr1 addr2 : Z) : Address :=
  {| a_sapi := band (shr addr1 2) 0x3F;
     a_cr := truthy (band addr1 0x02);
     a_ea0 := truthy (band addr1 0x01);
     a_tei := band (shr addr2 1) 0x7F;
     a_ea1 := truthy (band addr2 0x01) |}.

(** The control field and the offset after it. *)
Definition parseControl (data : list Z) : Control * nat :=
  let ctrl := num (data !! 2%nat) in
  let next := num (data !! 3%nat) in
  if band ctrl 0x01 =? 0 then
    ({| c_type := FrameI;
        ns := Some (band (shr ctrl 1) 0x7F);
        nr := Some (band (shr next 1) 0x7F);
        pf := Some (truthy (band next 0x01));
        supervisory := None; unnumbered := None |}, 4%nat)
  else if band ctrl 0x03 =? 0x01 then
    ({| c_type := FrameS;
        ns := None;
        nr := Some (band (shr next 1) 0x7F);
        pf := Some (truthy (band next 0x01));
        supervisory := supervisoryOf (band (shr ctrl 2) 0x03);
        unnumbered := None |}, 4%nat)
  else
    ({| c_type := FrameU;
        ns := None; nr := None;
        pf := Some (truthy (band ctrl 0x10));
        supervisory := None;
        unnumbered := unnumberedTypes (band ctrl 0xEF) |}, 3%nat).

Definition parseLAPDFrame (data : list Z) : Result LAPDFrame :=
  if (length data <? 4)%nat then Throw "LAPD frame too short"
  else
    let '(control, offset) := parseControl data in
    Ok {| address := parseAddress (num (data !! 0%nat)) (num (data !! 1%nat));
          control := control;
          information :=
            if (offset <? length data - 2)%nat
            then Some (slice offset (length data - 2) data)
            else None;
          fcs := readUInt16LE data (length data - 2) |}.

(** *** buildLAPDFrame *)

Definition flag (b : bool) (bit : Z) : Z := if b then bit else 0.

Definition sTypes (s : option SupervisoryType) : option Z :=
  match s with
  | Some RR => Some 0
  | Some RNR => Some 1
  | Some REJ => Some 2
  | Some SREJ => Some 3
  | None => None
  end.

Definition uTypes (u : option UnnumberedType) : option Z :=
  match u with
  | Some SABME => Some 0x6F
  | Some DM => Some 0x0F
  | Some UI => Some 0x03
  | Some DISC => Some 0x43
  | Some UA => Some 0x63
  | Some FRMR => Some 0x87
  | Some XID => Some 0xAF
  | None => None
  end.

Definition buildAddress (a : Address) : list Z :=
  [ toUint8 (bor (bor (shl (a_sapi a) 2) (flag (a_cr a) 0x02)) (flag (a_ea0 a) 0x01));
    toUint8 (bor (shl (a_tei a) 1) (flag (a_ea1 a) 0x01)) ].

Definition buildControl (c : Control) : list Z :=
  match c_type c with
  | FrameI =>
      [ toUint8 (shl (num (ns c)) 1);
        toUint8 (bor (shl (num (nr c)) 1) (flag (default false (pf c)) 0x01)) ]
  | FrameS =>
      [ toUint8 (bor 0x01 (shl (num (sTypes (supervisory c))) 2));
        toUint8 (bor (shl (num (nr c)) 1) (flag (default false (pf c)) 0x01)) ]
  | FrameU =>
      let ctrl := match uTypes (unnumbered c) with Some v => v | None => 0x03 end in
      [ toUint8 (if default false (pf c) then bor ctrl 0x10 else ctrl) ]
  end.

(** Address, control and information: what the FCS is calculated over. *)
Definition frameBody (frame : LAPDFrame) : list Z :=
  buildAddress (address frame) ++ buildControl (control frame)
    ++ default [] (information frame).

Definition buildLAPDFrame (frame : LAPDFrame) : list Z :=
  frameBody frame ++ uint16LE (calculateFCS (frameBody frame)).

(** *** parseQ931Message *)

(** The call reference loop: [i] counts from 0, [offset] is advanced. *)
Fixpoint parseCallRefValue (data : list Z) (n : nat) (i offset : nat) (value : Z) : Z :=
  match n with
  | O => value
  | S n' =>
      parseCallRefValue data n' (S i) (S offset)
        (bor (shl value 8)
             (band (num (data !! offset)) (if (i =? 0)%nat then 0x7F else 0xFF)))
  end.

(** The information element loop over the octets from [offset] on.  An
    element identifier that is the last octet of the message has no length
    octet: its data is empty and the loop ends. *)
Fixpoint parseIEs (fuel : nat) (rest : list Z) : list Q931InformationElement :=
  match fuel, rest with
  | O, _ => []
  | _, [] => []
  | S fuel', ieId :: rest' =>
      if truthy (band ieId 0x80) then
        {| ie_id := ieId; ie_data := [] |} :: parseIEs fuel' rest'
      else
        match rest' with
        | [] => [ {| ie_id := ieId; ie_data := [] |} ]
        | ieLength :: rest'' =>
            {| ie_id := ieId; ie_data := take (Z.to_nat ieLength) rest'' |}
              :: parseIEs fuel' (drop (Z.to_nat ieLength) rest'')
        end
  end.

Definition parseQ931Message (data : list Z) : Result Q931Message :=
  if (length data <? 3)%nat then Throw "Q.931 message too short"
  else
    let callRefLength := Z.to_nat (band (num (data !! 1%nat)) 0x0F) in
    let offset := (2 + callRefLength)%nat in
    Ok {| protocolDiscriminator := num (data !! 0%nat);
          callReference :=
            {| cr_length := callRefLength;
               cr_flag := truthy (band (num (data !! 2%nat)) 0x80);
               cr_value := parseCallRefValue data callRefLength 0 2 0 |};
          messageType := data !! offset;
          informationElements :=
            parseIEs (length data) (drop (S offset) data) |}.

(** *** buildQ931Message *)

(** The octets of the call reference, most significant first:
    [for (i = length - 1; i >= 0; i--) (crv >> (i * 8)) & 0xFF]. *)
Fixpoint buildCallRefValue (crv : Z) (n : nat) : list Z :=
  match n with
  | O => []
  | S i => toUint8 (band (shr crv (Z.of_nat i * 8)) 0xFF) :: buildCallRefValue crv i
  end.

Definition buildIE (ie : Q931InformationElement) : list Z :=
  if truthy (band (ie_id ie) 0x80) then [ toUint8 (ie_id ie) ]
  else toUint8 (ie_id ie) :: toUint8 (Z.of_nat (length (ie_data ie))) :: ie_data ie.

Definition buildQ931Message (message : Q931Message) : list Z :=
  let cr := callReference message in
  let crv := if cr_flag cr then bor (cr_value cr) 0x80 else cr_value cr in
  [ toUint8 (protocolDiscriminator message); toUint8 (Z.of_nat (cr_length cr)) ]
    ++ buildCallRefValue crv (cr_length cr)
    ++ [ toUint8 (num (messageType message)) ]
    ++ concat (buildIE <$> informationElements message).

(** *** The handler's state

    The two timers the code arms are flags ([true]: armed); T201 and T202
    are never armed.  [transmitQueue] is never used.  [emitted] is the
    trace of the events the handler has emitted, oldest first. *)

Inductive DEvent :=
| EvStarted
| EvStopped
| EvEstablished
| EvDisconnected
| EvError (message : string)
| EvQ931Message (message : Q931Message)
| EvFrameOut (frameData : list Z)
| EvUiFrame (information : list Z)
| EvXidFrame (information : option (list Z)).

Record DChannelHandler := {
  config : DChannelConfig;
  state : DChannelState;
  isRunning : bool;
  vs : Z;
  vr : Z;
  va : Z;
  retransmissionCount : Z;
  ownBusy : bool;
  peerBusy : bool;
  t200 : bool;
  t203 : bool;
  acknowledgePending : list LAPDFrame;
  emitted : list DEvent
}.

Definition set_state (x : DChannelState) (h : DChannelHandler) : DChannelHandler :=
  {| config := config h;
     state := x;
     isRunning := isRunning h;
     vs := vs h;
     vr := vr h;
     va := va h;
     retransmissionCount := retransmissionCount h;
     ownBusy := ownBusy h;
     peerBusy := peerBusy h;
     t200 := t200 h;
     t203 := t203 h;
     acknowledgePending := acknowledgePending h;
     emitted := emitted h |}.

Definition set_isRunning (x : bool) (h : DChannelHandler) : DChannelHandler :=
  {| config := config h;
     state := state h;
     isRunning := x;
     vs := vs h;
     vr := vr h;
     va := va h;
     retransmissionCount := retransmissionCount h;
     ownBusy := ownBusy h;
     peerBusy := peerBusy h;
     t200 := t200 h;
     t203 := t203 h;
     acknowledgePending := acknowledgePending h;
     emitted := emitted h |}.

Definition set_vs (x : Z) (h : DChannelHandler) : DChannelHandler :=
  {| config := config h;
     state := state h;
     isRunning := isRunning h;
     vs := x;
     vr := vr h;
     va := va h;
     retransmissionCount := retransmissionCount h;
     ownBusy := ownBusy h;
     peerBusy := peerBusy h;
     t200 := t200 h;
     t203 := t203 h;
     acknowledgePending := acknowledgePending h;
     emitted := emitted h |}.

Definition set_vr (x : Z) (h : DChannelHandler) : DChannelHandler :=
  {| config := config h;
     state := state h;
     isRunning := isRunning h;
     vs := vs h;
     vr := x;
     va := va h;
     retransmissionCount := retransmissionCount h;
     ownBusy := ownBusy h;
     peerBusy := peerBusy h;
     t200 := t200 h;
     t203 := t203 h;
     acknowledgePending := acknowledgePending h;
     emitted := emitted h |}.

Definition set_va (x : Z) (h : DChannelHandler) : DChannelHandler :=
  {| config := config h;
     state := state h;
     isRunning := isRunning h;
     vs := vs h;
     vr := vr h;
     va := x;
     retransmissionCount := retransmissionCount h;
     ownBusy := ownBusy h;
     peerBusy := peerBusy h;
     t200 := t200 h;
     t203 := t203 h;
     acknowledgePending := acknowledgePending h;
     emitted := emitted h |}.

Definition set_retransmissionCount (x : Z) (h : DChannelHandler) : DChannelHandler :=
  {| config := config h;
     state := state h;
     isRunning := isRunning h;
     vs := vs h;
     vr := vr h;
     va := va h;
     retransmissionCount := x;
     ownBusy := ownBusy h;
     peerBusy := peerBusy h;
     t200 := t200 h;
     t203 := t203 h;
     acknowledgePending := acknowledgePending h;
     emitted := emitted h |}.

Definition set_peerBusy (x : bool) (h : DChannelHandler) : DChannelHandler :=
  {| config := config h;
     state := state h;
     isRunning := isRunning h;
     vs := vs h;
     vr := vr h;
     va := va h;
     retransmissionCount := retransmissionCount h;
     ownBusy := ownBusy h;
     peerBusy := x;
     t200 := t200 h;
     t203 := t203 h;
     acknowledgePending := acknowledgePending h;
     emitted := emitted h |}.

Definition set_t200 (x : bool) (h : DChannelHandler) : DChannelHandler :=
  {| config := config h;
     state := state h;
     isRunning := isRunning h;
     vs := vs h;
     vr := vr h;
     va := va h;
     retransmissionCount := retransmissionCount h;
     ownBusy := ownBusy h;
     peerBusy := peerBusy h;
     t200 := x;
     t203 := t203 h;
     acknowledgePending := acknowledgePending h;
     emitted := emitted h |}.

Definition set_t203 (x : bool) (h : DChannelHandler) : DChannelHandler :=
  {| config := config h;
     state := state h;
     isRunning := isRunning h;
     vs := vs h;
     vr := vr h;
     va := va h;
     retransmissionCount := retransmissionCount h;
     ownBusy := ownBusy h;
     peerBusy := peerBusy h;
     t200 := t200 h;
     t203 := x;
     acknowledgePending := acknowledgePending h;
     emitted := emitted h |}.

Definition set_acknowledgePending (x : list LAPDFrame) (h : DChannelHandler) : DChannelHandler :=
  {| config := config h;
     state := state h;
     isRunning := isRunning h;
     vs := vs h;
     vr := vr h;
     va := va h;
     retransmissionCount := retransmissionCount h;
     ownBusy := ownBusy h;
     peerBusy := peerBusy h;
     t200 := t200 h;
     t203 := t203 h;
     acknowledgePending := x;
     emitted := emitted h |}.

Definition set_emitted (x : list DEvent) (h : DChannelHandler) : DChannelHandler :=
  {| config := config h;
     state := state h;
     isRunning := isRunning h;
     vs := vs h;
     vr := vr h;
     va := va h;
     retransmissionCount := retransmissionCount h;
     ownBusy := ownBusy h;
     peerBusy := peerBusy h;
     t200 := t200 h;
     t203 := t203 h;
     acknowledgePending := acknowledgePending h;
     emitted := x |}.

(** The constructor. *)
Definition new (config : DChannelConfig) : DChannelHandler :=
  {| config := config; state := DOWN; isRunning := false;
     vs := 0; vr := 0; va := 0; retransmissionCount := 0;
     ownBusy := false; peerBusy := false; t200 := false; t203 := false;
     acknowledgePending := []; emitted := [] |}.

Definition emit (e : DEvent) (h : DChannelHandler) : DChannelHandler :=
  set_emitted (emitted h ++ [e]) h.

(** *** Timers *)

Definition startT200Timer : DChannelHandler -> DChannelHandler := set_t200 true.
Definition clearT200Timer : DChannelHandler -> DChannelHandler := set_t200 false.
Definition startT203Timer : DChannelHandler -> DChannelHandler := set_t203 true.
Definition clearT203Timer : DChannelHandler -> DChannelHandler := set_t203 false.
Definition restartT203Timer : DChannelHandler -> DChannelHandler := startT203Timer.
Definition clearAllTimers (h : DChannelHandler) : DChannelHandler :=
  clearT203Timer (clearT200Timer h).

(** *** Frame creation *)

Definition ownAddress (h : DChannelHandler) : Address :=
  {| a_sapi := sapi (config h); a_cr := true; a_ea0 := false;
     a_tei := tei (config h); a_ea1 := true |}.

Definition createInformationFrame (information : list Z) (h : DChannelHandler)
  : LAPDFrame :=
  {| address := ownAddress h;
     control := {| c_type := FrameI; ns := Some (vs h); nr := Some (vr h);
                   pf := Some false; supervisory := None; unnumbered := None |};
     information := Some information;
     fcs := 0 |}.

Definition createSupervisoryFrame (type : SupervisoryType) (pf : bool)
    (h : DChannelHandler) : LAPDFrame :=
  {| address := ownAddress h;
     control := {| c_type := FrameS; ns := None; nr := Some (vr h);
                   pf := Some pf; supervisory := Some type; unnumbered := None |};
     information := None;
     fcs := 0 |}.

Definition createUnnumberedFrame (type : UnnumberedType) (pf : bool)
    (h : DChannelHandler) : LAPDFrame :=
  {| address := ownAddress h;
     control := {| c_type := FrameU; ns := None; nr := None;
                   pf := Some pf; supervisory := None; unnumbered := Some type |};
     information := None;
     fcs := 0 |}.

(** *** sendFrame *)

(** The frames [sendFrame] keeps for retransmission. *)
Definition retransmittable (frame : LAPDFrame) : bool :=
  match c_type (control frame), unnumbered (control frame) with
  | FrameI, _ => true
  | FrameU, Some SABME => true
  | _, _ => false
  end.

Definition sendFrame (frame : LAPDFrame) (h : DChannelHandler) : DChannelHandler :=
  let h := emit (EvFrameOut (buildLAPDFrame frame)) h in
  if retransmittable frame
  then startT200Timer (set_acknowledgePending (acknowledgePending h ++ [frame]) h)
  else h.

Definition sendSupervisoryFrame (type : SupervisoryType) (pf : bool)
    (h : DChannelHandler) : DChannelHandler :=
  sendFrame (createSupervisoryFrame type pf h) h.

Definition sendRejectFrame : DChannelHandler -> DChannelHandler :=
  sendSupervisoryFrame REJ false.

(** *** start and stop *)

Definition establishFAS (h : DChannelHandler) : DChannelHandler :=
  let h := sendFrame (createUnnumberedFrame SABME true h) h in
  set_state AWAITING_ESTABLISHMENT (startT200Timer h).

Definition establishAsPrimary (h : DChannelHandler) : DChannelHandler :=
  let h := sendFrame (createUnnumberedFrame SABME true h) h in
  set_state AWAITING_ESTABLISHMENT (startT200Timer h).

Definition establishNFAS (h : DChannelHandler) : DChannelHandler :=
  if default false (primaryInterface (config h))
  then establishAsPrimary h
  else startT203Timer (set_state AWAITING_ESTABLISHMENT h).

Definition start (h : DChannelHandler) : Result DChannelHandler :=
  if isRunning h then Throw "D-Channel already running"
  else
    let h := set_state ESTABLISHING (set_isRunning true h) in
    let h := match mode (config h) with
             | FAS => establishFAS h
             | NFAS => establishNFAS h
             end in
    Ok (emit EvStarted h).

Definition stop (h : DChannelHandler) : DChannelHandler :=
  if isRunning h
  then emit EvStopped (set_isRunning false (set_state DOWN (clearAllTimers h)))
  else h.

Definition isEstablished (h : DChannelHandler) : bool :=
  bool_decide (state h = ESTABLISHED)
  || bool_decide (state h = MULTIPLE_FRAME_ESTABLISHED).

(** *** Acknowledgements *)

(** The frames the filter of [updateAcknowledgmentState] removes.  The
    comparison is the plain [<] of the source. *)
Definition acknowledged (nr : Z) (frame : LAPDFrame) : bool :=
  match c_type (control frame), ns (control frame) with
  | FrameI, Some n => n <? nr
  | _, _ => false
  end.

Definition updateAcknowledgmentState (nr : Z) (h : DChannelHandler)
  : DChannelHandler :=
  let pending :=
    List.filter (fun frame => negb (acknowledged nr frame)) (acknowledgePending h) in
  let h := set_va nr (set_acknowledgePending pending h) in
  match pending with
  | [] => clearT200Timer h
  | _ => h
  end.

Definition processSupervisoryRR (frame : LAPDFrame) (h : DChannelHandler) :=
  updateAcknowledgmentState (num (nr (control frame))) (set_peerBusy false h).

Definition processSupervisoryRNR (frame : LAPDFrame) (h : DChannelHandler) :=
  updateAcknowledgmentState (num (nr (control frame))) (set_peerBusy true h).

Definition processSupervisoryREJ (frame : LAPDFrame) (h : DChannelHandler) :=
  set_vs (num (nr (control frame)))
    (updateAcknowledgmentState (num (nr (control frame))) (set_peerBusy false h)).

Definition processSupervisoryFrame (frame : LAPDFrame) (h : DChannelHandler)
  : DChannelHandler :=
  match supervisory (control frame) with
  | Some RR => processSupervisoryRR frame h
  | Some RNR => processSupervisoryRNR frame h
  | Some REJ => processSupervisoryREJ frame h
  | _ => h
  end.

(** *** Received I-frames *)

Definition processQ931Message (data : list Z) (h : DChannelHandler)
  : DChannelHandler :=
  match parseQ931Message data with
  | Ok q931Message => emit (EvQ931Message q931Message) h
  | Throw _ => h
  end.

Definition processInformationFrame (frame : LAPDFrame) (h : DChannelHandler)
  : DChannelHandler :=
  if negb (isEstablished h) then h
  else if negb (bool_decide (ns (control frame) = Some (vr h))) then sendRejectFrame h
  else
    let h := set_vr ((vr h + 1) mod 128) h in
    let h := match information frame with
             | Some (_ :: _ as data) => processQ931Message data h
             | _ => h
             end in
    let h := sendSupervisoryFrame RR false h in
    updateAcknowledgmentState (num (nr (control frame))) h.

(** *** Received U-frames *)

Definition processUnnumberedSABME (h : DChannelHandler) : DChannelHandler :=
  let h := set_va 0 (set_vr 0 (set_vs 0 h)) in
  let h := sendFrame (createUnnumberedFrame UA false h) h in
  emit EvEstablished (set_state ESTABLISHED h).

Definition processUnnumberedUA (h : DChannelHandler) : DChannelHandler :=
  if bool_decide (state h = AWAITING_ESTABLISHMENT)
  then emit EvEstablished (startT203Timer (set_state ESTABLISHED (clearT200Timer h)))
  else h.

Definition processUnnumberedDISC (h : DChannelHandler) : DChannelHandler :=
  let h := sendFrame (createUnnumberedFrame UA false h) h in
  emit EvDisconnected (set_state DOWN h).

Definition processUnnumberedDM (h : DChannelHandler) : DChannelHandler :=
  emit EvDisconnected (set_state DOWN h).

Definition processUnnumberedFRMR (h : DChannelHandler) : DChannelHandler :=
  emit (EvError "Frame rejected by peer") (set_state DOWN h).

Definition processUnnumberedUI (frame : LAPDFrame) (h : DChannelHandler) :=
  match information frame with
  | Some information => emit (EvUiFrame information) h
  | None => h
  end.

Definition processUnnumberedXID (frame : LAPDFrame) (h : DChannelHandler) :=
  emit (EvXidFrame (information frame)) h.

Definition processUnnumberedFrame (frame : LAPDFrame) (h : DChannelHandler)
  : DChannelHandler :=
  match unnumbered (control frame) with
  | Some SABME => processUnnumberedSABME h
  | Some UA => processUnnumberedUA h
  | Some DM => processUnnumberedDM h
  | Some DISC => processUnnumberedDISC h
  | Some FRMR => processUnnumberedFRMR h
  | Some UI => processUnnumberedUI frame h
  | Some XID => processUnnumberedXID frame h
  | None => h
  end.

(** *** processReceivedFrame *)

Definition validateFrameAddress (frame : LAPDFrame) (h : DChannelHandler) : bool :=
  bool_decide (a_sapi (address frame) = sapi (config h))
  && bool_decide (a_tei (address frame) = tei (config h)).

(** The [switch] on the frame type. *)
Definition dispatchFrame (frame : LAPDFrame) (h : DChannelHandler)
  : DChannelHandler :=
  match c_type (control frame) with
  | FrameI => processInformationFrame frame h
  | FrameS => processSupervisoryFrame frame h
  | FrameU => processUnnumberedFrame frame h
  end.

(** The frame a running handler acts on: a frame that does not parse or is
    addressed to another endpoint is logged and dropped.  The handler's
    owner listens to its ['error'] event, as the NFAS manager does, so
    emitting it does not throw. *)
Definition acceptedFrame (frameData : list Z) (h : DChannelHandler)
  : option LAPDFrame :=
  if isRunning h then
    match parseLAPDFrame frameData with
    | Ok frame => if validateFrameAddress frame h then Some frame else None
    | Throw _ => None
    end
  else None.

Definition processReceivedFrame (frameData : list Z) (h : DChannelHandler)
  : DChannelHandler :=
  match acceptedFrame frameData h with
  | Some frame => restartT203Timer (dispatchFrame frame h)
  | None => h
  end.

(** *** sendQ931Message *)

Definition sendQ931Message (message : Q931Message) (h : DChannelHandler)
  : Result DChannelHandler :=
  if isEstablished h
  then Ok (sendFrame (createInformationFrame (buildQ931Message message) h) h)
  else Throw "D-Channel not established".

(** *** Timer expiry

    [for (const frame of this.acknowledgePending) this.sendFrame(frame)]:
    the array iterator reads the array, which [sendFrame] extends, at
    every step.  [sendFrame] has no [await], so each call runs to its end
    before the next step.  [fuel] bounds the number of steps;
    [Running] is a loop that has not ended when the fuel is spent. *)

Inductive Outcome :=
| Finished (h : DChannelHandler)
| Running (h : DChannelHandler).

Fixpoint retransmitPending (fuel : nat) (i : nat) (h : DChannelHandler) : Outcome :=
  match acknowledgePending h !! i with
  | None => Finished h
  | Some frame =>
      match fuel with
      | O => Running h
      | S fuel' => retransmitPending fuel' (S i) (sendFrame frame h)
      end
  end.

Definition handleT200Timeout (fuel : nat) (h : DChannelHandler) : Outcome :=
  if retransmissionCount h >=? maxRetransmissions (config h) then
    Finished (emit (EvError "Layer 2 establishment failed") (set_state DOWN h))
  else
    match retransmitPending fuel 0 h with
    | Finished h =>
        Finished (startT200Timer
                    (set_retransmissionCount (retransmissionCount h + 1) h))
    | Running h => Running h
    end.

Definition handleT203Timeout (h : DChannelHandler) : DChannelHandler :=
  startT203Timer (sendFrame (createSupervisoryFrame RR true h) h).



(** *** The handler as a transition system

    What can happen to one handler: its public methods are called, a frame
    arrives, an armed timer expires.  A call that throws leaves the state
    as it was; a timer expiry whose handler does not return has no
    successor state. *)

Inductive Input :=
| InStart
| InStop
| InFrame (frameData : list Z)
| InSendQ931 (message : Q931Message)
| InT200 (fuel : nat)
| InT203.

Definition step (i : Input) (h : DChannelHandler) : option DChannelHandler :=
  match i with
  | InStart => match start h with Ok h' => Some h' | Throw _ => Some h end
  | InStop => Some (stop h)
  | InFrame frameData => Some (processReceivedFrame frameData h)
  | InSendQ931 message =>
      match sendQ931Message message h with Ok h' => Some h' | Throw _ => Some h end
  | InT200 fuel =>
      if t200 h then
        match handleT200Timeout fuel (set_t200 false h) with
        | Finished h' => Some h'
        | Running _ => None
        end
      else None
  | InT203 => if t203 h then Some (handleT203Timeout (set_t203 false h)) else None
  end.

Fixpoint run (inputs : list Input) (h : DChannelHandler) : option DChannelHandler :=
  match inputs with
  | [] => Some h
  | i :: inputs => h' ← step i h; run inputs h'
  end.

Definition reachable (config : DChannelConfig) (h : DChannelHandler) : Prop :=
  exists inputs, run inputs (new config) = Some h.

End DChannel.

(** ** src/protocols/nfas-manager.ts *)

Module NFASManager.
Import JS.
Local Open Scope Z_scope.

Record NFASGroupConfig := {
  gc_groupId : Z;
  gc_primarySpan : Z;
  gc_backupSpans : list Z;
  gc_loadBalancing : bool;
  gc_ces : Z
}.

Record NFASConfiguration := {
  enabled : bool;
  groups_config : list NFASGroupConfig;
  switchoverTimeout : Z;
  heartbeatInterval : Z;
  maxSwitchoverAttempts : Z
}.

Inductive GroupState := inactive | active | switching.

#[global] Instance GroupState_eq_dec : EqDecision GroupState.
Proof. solve_decision. Defined.

(** [NFASGroup] of d-channel.ts.  [spans] is only ever read by key. *)
Record NFASGroup := {
  groupId : Z;
  primarySpan : Z;
  backupSpans : list Z;
  activeSpan : Z;
  spans : gmap Z DChannel.DChannelHandler;
  state : GroupState
}.

Record NFASStatistics := {
  st_groupId : Z;
  st_activeSpan : Z;
  st_primarySpan : Z;
  st_availableSpans : list Z;
  switchoverCount : Z;
  lastSwitchover : option Z;
  heartbeatsSent : Z;
  heartbeatsLost : Z;
  callsHandled : Z
}.

Inductive Event :=
| Started
| Stopped
| FrameOut (spanId : Z) (frameData : list Z)
| GroupActivated (groupId activeSpan : Z)
| GroupInactive (groupId : Z) (reason : string)
| SwitchoverCompleted (groupId previousSpan newActiveSpan : Z) (reason : string)
| Q931MessageIn (groupId spanId : Z) (message : DChannel.Q931Message).

(** The manager.  [groups] is the [Map] from group id to group, in
    insertion order, each group under its own [groupId].  [heartbeat] tells
    whether the heartbeat interval is armed.  [dChannelHandlers] holds the
    same handler objects as the groups and is read by [stop] only, which
    drops them all; it is not a field here. *)
Record Manager := {
  config : NFASConfiguration;
  groups : list NFASGroup;
  isRunning : bool;
  heartbeat : bool;
  statistics : gmap Z NFASStatistics;
  emitted : list Event
}.

Definition set_groups (x : list NFASGroup) (m : Manager) : Manager :=
  {| config := config m; groups := x; isRunning := isRunning m;
     heartbeat := heartbeat m; statistics := statistics m; emitted := emitted m |}.
Definition set_isRunning (x : bool) (m : Manager) : Manager :=
  {| config := config m; groups := groups m; isRunning := x;
     heartbeat := heartbeat m; statistics := statistics m; emitted := emitted m |}.
Definition set_heartbeat (x : bool) (m : Manager) : Manager :=
  {| config := config m; groups := groups m; isRunning := isRunning m;
     heartbeat := x; statistics := statistics m; emitted := emitted m |}.
Definition set_statistics (x : gmap Z NFASStatistics) (m : Manager) : Manager :=
  {| config := config m; groups := groups m; isRunning := isRunning m;
     heartbeat := heartbeat m; statistics := x; emitted := emitted m |}.
Definition emit (e : Event) (m : Manager) : Manager :=
  {| config := config m; groups := groups m; isRunning := isRunning m;
     heartbeat := heartbeat m; statistics := statistics m;
     emitted := emitted m ++ [e] |}.

Definition set_activeSpan (x : Z) (g : NFASGroup) : NFASGroup :=
  {| groupId := groupId g; primarySpan := primarySpan g;
     backupSpans := backupSpans g; activeSpan := x; spans := spans g;
     state := state g |}.
Definition set_state (x : GroupState) (g : NFASGroup) : NFASGroup :=
  {| groupId := groupId g; primarySpan := primarySpan g;
     backupSpans := backupSpans g; activeSpan := activeSpan g; spans := spans g;
     state := x |}.
Definition set_spans (x : gmap Z DChannel.DChannelHandler) (g : NFASGroup)
  : NFASGroup :=
  {| groupId := groupId g; primarySpan := primarySpan g;
     backupSpans := backupSpans g; activeSpan := activeSpan g; spans := x;
     state := state g |}.

Definition new (config : NFASConfiguration) : Manager :=
  {| config := config; groups := []; isRunning := false; heartbeat := false;
     statistics := ∅; emitted := [] |}.

(** *** The map of groups *)

Definition getGroup (gid : Z) (gs : list NFASGroup) : option NFASGroup :=
  List.find (fun g => bool_decide (groupId g = gid)) gs.

(** [groups.set(group.groupId, group)]: an existing key keeps its place. *)
Fixpoint setGroup (g : NFASGroup) (gs : list NFASGroup) : list NFASGroup :=
  match gs with
  | [] => [g]
  | g0 :: gs' =>
      if bool_decide (groupId g0 = groupId g) then g :: gs'
      else g0 :: setGroup g gs'
  end.

Definition putGroup (g : NFASGroup) (m : Manager) : Manager :=
  set_groups (setGroup g (groups m)) m.

(** *** initializeGroup: the handlers and the statistics *)

Definition dChannelConfig (gc : NFASGroupConfig) (spanId : Z)
  : DChannel.DChannelConfig :=
  let isPrimary := bool_decide (spanId = gc_primarySpan gc) in
  {| DChannel.mode := DChannel.NFAS;
     DChannel.spanId := spanId;
     DChannel.channelId := 16;
     DChannel.tei := 0;
     DChannel.sapi := 0;
     DChannel.ces := gc_ces gc;
     DChannel.primaryInterface := Some isPrimary;
     DChannel.backupInterface := Some (negb isPrimary);
     DChannel.interfaceGroup := Some (gc_groupId gc);
     DChannel.maxRetransmissions := 3;
     DChannel.t200Timer := 1000;
     DChannel.t201Timer := 1000;
     DChannel.t202Timer := 2000;
     DChannel.t203Timer := 10000;
     DChannel.n200Counter := 3;
     DChannel.n201Counter := 260 |}.

Definition allSpans (gc : NFASGroupConfig) : list Z :=
  gc_primarySpan gc :: gc_backupSpans gc.

Definition newSpans (gc : NFASGroupConfig) : gmap Z DChannel.DChannelHandler :=
  foldl (fun acc spanId => <[spanId := DChannel.new (dChannelConfig gc spanId)]> acc)
        ∅ (allSpans gc).

Definition newGroup (gc : NFASGroupConfig) : NFASGroup :=
  {| groupId := gc_groupId gc;
     primarySpan := gc_primarySpan gc;
     backupSpans := gc_backupSpans gc;
     activeSpan := gc_primarySpan gc;
     spans := newSpans gc;
     state := inactive |}.

Definition newStatistics (gc : NFASGroupConfig) : NFASStatistics :=
  {| st_groupId := gc_groupId gc;
     st_activeSpan := gc_primarySpan gc;
     st_primarySpan := gc_primarySpan gc;
     st_availableSpans := allSpans gc;
     switchoverCount := 0;
     lastSwitchover := None;
     heartbeatsSent := 0;
     heartbeatsLost := 0;
     callsHandled := 0 |}.

(** *** Handlers under the manager

    A handler's events reach the manager's listeners while the handler's
    method runs.  The handler methods below are run on a handler whose
    trace is empty; the events of the call are then handed, in order, to
    the listeners, and the handler is stored with an empty trace again. *)

Definition quiet (h : DChannel.DChannelHandler) : DChannel.DChannelHandler :=
  DChannel.set_emitted [] h.

(** The only listener that matters while [stop] or [start] runs inside the
    manager: ['frameOut'] is passed on with the handler's span. *)
Definition relayFrames (h : DChannel.DChannelHandler) (m : Manager) : Manager :=
  foldl (fun m e =>
           match e with
           | DChannel.EvFrameOut frameData =>
               emit (FrameOut (DChannel.spanId (DChannel.config h)) frameData) m
           | _ => m
           end) m (DChannel.emitted h).

(** *** performSwitchover *)

Definition available (group : NFASGroup) (spanId : Z) : bool :=
  match spans group !! spanId with
  | Some handler =>
      negb (bool_decide (DChannel.state handler = DChannel.DOWN))
      && negb (bool_decide (spanId = activeSpan group))
  | None => false
  end.

Definition recordSwitchover (now spanId : Z) (s : NFASStatistics) : NFASStatistics :=
  {| st_groupId := st_groupId s;
     st_activeSpan := spanId;
     st_primarySpan := st_primarySpan s;
     st_availableSpans := st_availableSpans s;
     switchoverCount := switchoverCount s + 1;
     lastSwitchover := Some now;
     heartbeatsSent := heartbeatsSent s;
     heartbeatsLost := heartbeatsLost s;
     callsHandled := callsHandled s |}.

(** Stop the current active interface if the group has a handler for it. *)
Definition stopCurrent (group : NFASGroup) (m : Manager) : NFASGroup * Manager :=
  match spans group !! activeSpan group with
  | Some currentHandler =>
      let h := DChannel.stop (quiet currentHandler) in
      (set_spans (<[activeSpan group := quiet h]> (spans group)) group,
       relayFrames h m)
  | None => (group, m)
  end.

(** The loop over the available spans.  The group is written back to the
    manager when the loop ends. *)
Fixpoint trySpans (now : Z) (reason : string) (candidates : list Z)
    (group : NFASGroup) (m : Manager) : Manager :=
  match candidates with
  | [] =>
      emit (GroupInactive (groupId group) "switchover_failed")
           (putGroup (set_state inactive group) m)
  | spanId :: candidates' =>
      match spans group !! spanId with
      | None => trySpans now reason candidates' group m
      | Some _ =>
          let '(group, m) := stopCurrent group m in
          let started :=
            match spans group !! spanId with
            | Some handler =>
                if DChannel.isEstablished handler then Ok (group, m)
                else
                  match DChannel.start (quiet handler) with
                  | Ok h =>
                      Ok (set_spans (<[spanId := quiet h]> (spans group)) group,
                          relayFrames h m)
                  | Throw e => Throw e
                  end
            | None => Ok (group, m)
            end in
          match started with
          | Throw _ => trySpans now reason candidates' group m
          | Ok (group, m) =>
              let group := set_state active (set_activeSpan spanId group) in
              let m := putGroup group m in
              let m := match statistics m !! groupId group with
                       | Some stats =>
                           set_statistics
                             (<[groupId group := recordSwitchover now spanId stats]>
                                (statistics m)) m
                       | None => m
                       end in
              emit (SwitchoverCompleted (groupId group) (activeSpan group) spanId reason) m
          end
      end
  end.

Definition performSwitchover (now groupId : Z) (reason : string) (m : Manager)
  : Manager :=
  match getGroup groupId (groups m) with
  | None => m
  | Some group =>
      let group := set_state switching group in
      let availableSpans :=
        List.filter (available group) (primarySpan group :: backupSpans group) in
      match availableSpans with
      | [] =>
          emit (GroupInactive groupId "no_backup_available")
               (putGroup (set_state inactive group) m)
      | _ => trySpans now reason availableSpans group m
      end
  end.

(** *** The listeners of setupDChannelEventHandlers

    A listener is given the handler's configuration and the id of the
    group the handler was created for. *)

Definition handleDChannelEstablished (c : DChannel.DChannelConfig) (gid : Z)
    (m : Manager) : Manager :=
  match getGroup gid (groups m) with
  | Some group =>
      if default false (DChannel.primaryInterface c)
         && negb (bool_decide (state group = active))
      then
        emit (GroupActivated (groupId group) (DChannel.spanId c))
             (putGroup (set_activeSpan (DChannel.spanId c) (set_state active group)) m)
      else m
  | None => m
  end.

Definition handleDChannelDisconnected (now : Z) (c : DChannel.DChannelConfig)
    (gid : Z) (m : Manager) : Manager :=
  match getGroup gid (groups m) with
  | Some group =>
      if bool_decide (DChannel.spanId c = activeSpan group)
      then performSwitchover now (groupId group) "interface_down" m
      else m
  | None => m
  end.

Definition handleDChannelError (now : Z) (c : DChannel.DChannelConfig)
    (gid : Z) (m : Manager) : Manager :=
  match getGroup gid (groups m) with
  | Some group =>
      if bool_decide (DChannel.spanId c = activeSpan group)
      then performSwitchover now (groupId group) "interface_error" m
      else m
  | None => m
  end.

Definition countCall (s : NFASStatistics) : NFASStatistics :=
  {| st_groupId := st_groupId s;
     st_activeSpan := st_activeSpan s;
     st_primarySpan := st_primarySpan s;
     st_availableSpans := st_availableSpans s;
     switchoverCount := switchoverCount s;
     lastSwitchover := lastSwitchover s;
     heartbeatsSent := heartbeatsSent s;
     heartbeatsLost := heartbeatsLost s;
     callsHandled := callsHandled s + 1 |}.

Definition countHeartbeat (s : NFASStatistics) : NFASStatistics :=
  {| st_groupId := st_groupId s;
     st_activeSpan := st_activeSpan s;
     st_primarySpan := st_primarySpan s;
     st_availableSpans := st_availableSpans s;
     switchoverCount := switchoverCount s;
     lastSwitchover := lastSwitchover s;
     heartbeatsSent := heartbeatsSent s + 1;
     heartbeatsLost := heartbeatsLost s;
     callsHandled := callsHandled s |}.

(** [const stats = this.statistics.get(id); if (stats) ...]: the record is
    updated in place. *)
Definition updateStatistics (gid : Z) (f : NFASStatistics -> NFASStatistics)
    (m : Manager) : Manager :=
  match statistics m !! gid with
  | Some stats => set_statistics (<[gid := f stats]> (statistics m)) m
  | None => m
  end.

Definition handleQ931Message (c : DChannel.DChannelConfig) (gid : Z)
    (message : DChannel.Q931Message) (m : Manager) : Manager :=
  match getGroup gid (groups m) with
  | Some group =>
      if bool_decide (DChannel.spanId c = activeSpan group)
      then emit (Q931MessageIn (groupId group) (DChannel.spanId c) message)
                (updateStatistics (groupId group) countCall m)
      else m
  | None => m
  end.

Definition listener (now : Z) (c : DChannel.DChannelConfig) (gid : Z)
    (m : Manager) (e : DChannel.DEvent) : Manager :=
  match e with
  | DChannel.EvEstablished => handleDChannelEstablished c gid m
  | DChannel.EvDisconnected => handleDChannelDisconnected now c gid m
  | DChannel.EvError _ => handleDChannelError now c gid m
  | DChannel.EvQ931Message message => handleQ931Message c gid message m
  | DChannel.EvFrameOut frameData => emit (FrameOut (DChannel.spanId c) frameData) m
  | _ => m
  end.

(** The handler stored under [key] in group [gid]. *)
Definition getHandler (gid key : Z) (m : Manager) : option DChannel.DChannelHandler :=
  group ← getGroup gid (groups m); spans group !! key.

(** The handler under [key] replaced by its next state, without events. *)
Definition updateHandler (gid key : Z)
    (f : DChannel.DChannelHandler -> DChannel.DChannelHandler) (m : Manager)
  : Manager :=
  match getGroup gid (groups m) with
  | Some group =>
      match spans group !! key with
      | Some handler => putGroup (set_spans (<[key := f handler]> (spans group)) group) m
      | None => m
      end
  | None => m
  end.

(** A handler method has run and left the handler as [h], with the events
    of the call in its trace. *)
Definition deliver (now gid key : Z) (h : DChannel.DChannelHandler) (m : Manager)
  : Manager :=
  foldl (listener now (DChannel.config h) gid)
        (updateHandler gid key (fun _ => quiet h) m)
        (DChannel.emitted h).

(** *** initializeGroup, start and stop *)

Definition initializeGroup (now : Z) (m : Manager) (gc : NFASGroupConfig) : Manager :=
  let group := newGroup gc in
  let m := set_statistics (<[gc_groupId gc := newStatistics gc]> (statistics m)) m in
  let m := putGroup group m in
  match spans group !! gc_primarySpan gc with
  | Some primaryHandler =>
      match DChannel.start (quiet primaryHandler) with
      | Ok h =>
          let m := deliver now (gc_groupId gc) (gc_primarySpan gc) h m in
          match getGroup (gc_groupId gc) (groups m) with
          | Some group => putGroup (set_state active group) m
          | None => m
          end
      | Throw _ => performSwitchover now (gc_groupId gc) "primary_failed" m
      end
  | None => m
  end.

Definition startHeartbeatMonitoring (m : Manager) : Manager :=
  if heartbeatInterval (config m) <=? 0 then m else set_heartbeat true m.

Definition start (now : Z) (m : Manager) : Result Manager :=
  if isRunning m then Throw "NFAS Manager already running"
  else
    let m := foldl (initializeGroup now) m (groups_config (config m)) in
    Ok (emit Started (set_isRunning true (startHeartbeatMonitoring m))).

(** Every handler is stopped and dropped with its group; no listener is
    registered for a handler's ['stopped']. *)
Definition stop (m : Manager) : Manager :=
  if isRunning m
  then emit Stopped (set_isRunning false (set_groups [] (set_heartbeat false m)))
  else m.

(** *** Frames and timers of the handlers *)

(** The first group, in the map's order, with a handler for the span. *)
Definition groupOfSpan (spanId : Z) (gs : list NFASGroup) : option NFASGroup :=
  List.find (fun g => bool_decide (is_Some (spans g !! spanId))) gs.

(** The listeners run inside the handler's [switch]; the handler restarts
    T203 after it. *)
Definition processReceivedFrame (now spanId : Z) (frameData : list Z) (m : Manager)
  : Manager :=
  match groupOfSpan spanId (groups m) with
  | Some group =>
      match spans group !! spanId with
      | Some handler =>
          match DChannel.acceptedFrame frameData handler with
          | Some frame =>
              let h := DChannel.dispatchFrame frame (quiet handler) in
              let m := deliver now (groupId group) spanId h m in
              updateHandler (groupId group) spanId DChannel.restartT203Timer m
          | None => m
          end
      | None => m
      end
  | None => m
  end.

(** T200 of the handler under [key] expires.  There is no next state when
    the timer is not armed or the handler's loop does not end. *)
Definition expireT200 (now gid key : Z) (fuel : nat) (m : Manager) : option Manager :=
  handler ← getHandler gid key m;
  if DChannel.t200 handler then
    match DChannel.handleT200Timeout fuel (DChannel.set_t200 false (quiet handler)) with
    | DChannel.Finished h => Some (deliver now gid key h m)
    | DChannel.Running _ => None
    end
  else None.

Definition expireT203 (now gid key : Z) (m : Manager) : option Manager :=
  handler ← getHandler gid key m;
  if DChannel.t203 handler
  then Some (deliver now gid key
               (DChannel.handleT203Timeout (DChannel.set_t203 false (quiet handler))) m)
  else None.

(** *** sendQ931Message, heartbeats, forceSwitchover *)

Definition sendQ931Message (now groupId : Z) (message : DChannel.Q931Message)
    (m : Manager) : Result Manager :=
  match getGroup groupId (groups m) with
  | None => Throw ("NFAS group " +:+ toString groupId +:+ " not found")
  | Some group =>
      if negb (bool_decide (state group = active))
      then Throw ("NFAS group " +:+ toString groupId +:+ " is not active")
      else
        match spans group !! activeSpan group with
        | Some activeHandler =>
            match DChannel.sendQ931Message message (quiet activeHandler) with
            | Ok h => Ok (deliver now groupId (activeSpan group) h m)
            | Throw _ =>
                Throw ("Active interface for group " +:+ toString groupId
                         +:+ " is not established")
            end
        | None =>
            Throw ("Active interface for group " +:+ toString groupId
                     +:+ " is not established")
        end
  end.

Definition statusEnquiry : DChannel.Q931Message :=
  {| DChannel.protocolDiscriminator := 0x08;
     DChannel.callReference :=
       {| DChannel.cr_length := 1; DChannel.cr_flag := false; DChannel.cr_value := 0 |};
     DChannel.messageType := Some 0x75;
     DChannel.informationElements := [] |}.

(** One round of the heartbeat loop, for the group with id [gid]. *)
Definition sendHeartbeat (now : Z) (m : Manager) (gid : Z) : Manager :=
  match getGroup gid (groups m) with
  | Some group =>
      if bool_decide (state group = active) then
        match spans group !! activeSpan group with
        | Some activeHandler =>
            match DChannel.sendQ931Message statusEnquiry (quiet activeHandler) with
            | Ok h =>
                updateStatistics gid countHeartbeat
                  (deliver now gid (activeSpan group) h m)
            | Throw _ => m
            end
        | None => m
        end
      else m
  | None => m
  end.

Definition sendHeartbeats (now : Z) (m : Manager) : Manager :=
  foldl (sendHeartbeat now) m (groupId <$> groups m).

Definition forceSwitchover (now groupId : Z) (targetSpanId : option Z) (m : Manager)
  : Result Manager :=
  match getGroup groupId (groups m) with
  | None => Throw ("NFAS group " +:+ toString groupId +:+ " not found")
  | Some group =>
      match targetSpanId with
      | Some target =>
          if truthy target then
            match spans group !! target with
            | Some _ =>
                Ok (performSwitchover now groupId "manual"
                      (putGroup (set_activeSpan target group) m))
            | None =>
                Throw ("Span " +:+ toString target +:+ " not found in group "
                         +:+ toString groupId)
            end
          else Ok (performSwitchover now groupId "manual" m)
      | None => Ok (performSwitchover now groupId "manual" m)
      end
  end.

(** *** The manager as a transition system

    What can happen to a manager: its public methods are called, a frame
    arrives on a span, the heartbeat interval fires, a timer of one of its
    handlers expires; [now] is the clock's reading.  A call that throws
    leaves the state as it was. *)

Inductive Input :=
| InStart
| InStop
| InFrame (spanId : Z) (frameData : list Z)
| InSendQ931 (groupId : Z) (message : DChannel.Q931Message)
| InForceSwitchover (groupId : Z) (targetSpanId : option Z)
| InHeartbeat
| InT200 (groupId spanId : Z) (fuel : nat)
| InT203 (groupId spanId : Z).

Definition orSame {A} (r : Result A) (a : A) : A :=
  match r with Ok a' => a' | Throw _ => a end.

Definition step (now : Z) (i : Input) (m : Manager) : option Manager :=
  match i with
  | InStart => Some (orSame (start now m) m)
  | InStop => Some (stop m)
  | InFrame spanId frameData => Some (processReceivedFrame now spanId frameData m)
  | InSendQ931 groupId message => Some (orSame (sendQ931Message now groupId message m) m)
  | InForceSwitchover groupId target =>
      Some (orSame (forceSwitchover now groupId target m) m)
  | InHeartbeat => if heartbeat m then Some (sendHeartbeats now m) else None
  | InT200 groupId spanId fuel => expireT200 now groupId spanId fuel m
  | InT203 groupId spanId => expireT203 now groupId spanId m
  end.

Fixpoint run (inputs : list (Z * Input)) (m : Manager) : option Manager :=
  match inputs with
  | [] => Some m
  | (now, i) :: inputs => m' ← step now i m; run inputs m'
  end.

Definition reachable (config : NFASConfiguration) (m : Manager) : Prop :=
  exists inputs, run inputs (new config) = Some m.

End NFASManager.

(** ** The SIGTRAN ISUP handler (src/unnamed/part_001) *)

Module Isup.
Import JS.
Local Open Scope Z_scope.

Record ISUPMessage := {
  messageType : Z;
  cic : Z;
  parameters : list Z
}.

Inductive CallState := idle | outgoing_setup | incoming_setup | answered | releasing.

Record ISUPCall := {
  c_cic : Z;
  c_state : CallState;
  callingNumber : option string;
  calledNumber : option string;
  startTime : option Z
}.

Definition set_c_state (x : CallState) (c : ISUPCall) : ISUPCall :=
  {| c_cic := c_cic c; c_state := x; callingNumber := callingNumber c;
     calledNumber := calledNumber c; startTime := startTime c |}.

Inductive Event :=
| Started
| Stopped
| MessageOut (message : ISUPMessage)
| UnknownMessage (message : ISUPMessage)
| IncomingCall (call : ISUPCall)
| CallProgress (call : ISUPCall)
| CallAnswered (call : ISUPCall)
| CallReleased (call : ISUPCall) (cause : Z)
| CallCleared (call : ISUPCall).

(** The handler.  [availableCICs] is the [Set] of free CICs in insertion
    order, without repetition: that is the order [Array.from] lists it in.
    The configuration is never read by the methods below. *)
Record Handler := {
  calls : gmap Z ISUPCall;
  isRunning : bool;
  availableCICs : list Z;
  emitted : list Event
}.

Definition set_calls (x : gmap Z ISUPCall) (h : Handler) : Handler :=
  {| calls := x; isRunning := isRunning h; availableCICs := availableCICs h;
     emitted := emitted h |}.
Definition set_isRunning (x : bool) (h : Handler) : Handler :=
  {| calls := calls h; isRunning := x; availableCICs := availableCICs h;
     emitted := emitted h |}.
Definition set_availableCICs (x : list Z) (h : Handler) : Handler :=
  {| calls := calls h; isRunning := isRunning h; availableCICs := x;
     emitted := emitted h |}.
Definition emit (e : Event) (h : Handler) : Handler :=
  {| calls := calls h; isRunning := isRunning h; availableCICs := availableCICs h;
     emitted := emitted h ++ [e] |}.

(** [Set.prototype.add] and [delete] on the insertion-ordered set. *)
Definition setAdd (x : Z) (s : list Z) : list Z :=
  if bool_decide (x ∈ s) then s else s ++ [x].
Definition setDelete (x : Z) (s : list Z) : list Z :=
  List.filter (fun y => negb (bool_decide (y = x))) s.

(** The constructor: CICs 1 to 1000 are added in ascending order. *)
Definition new : Handler :=
  {| calls := ∅; isRunning := false;
     availableCICs := Z.of_nat <$> seq 1 1000;
     emitted := [] |}.

(** A method that returns [a] or throws, and the state it leaves. *)
Inductive Completion (A : Type) : Type :=
| Return (a : A) (h : Handler)
| Raise (message : string) (h : Handler).
Arguments Return {A} a h.
Arguments Raise {A} message h.

Definition final {A} (c : Completion A) : Handler :=
  match c with Return _ h => h | Raise _ h => h end.

(** The [RangeError] of a [Buffer] read or write out of range. *)
Definition ERR_OUT_OF_RANGE : string := "ERR_OUT_OF_RANGE".

(** *** start and stop *)

Definition start (h : Handler) : Completion unit :=
  if isRunning h then Raise "Sigtran ISUP handler already running" h
  else Return () (emit Started (set_isRunning true h)).

Definition stop (h : Handler) : Handler :=
  if isRunning h then emit Stopped (set_calls ∅ (set_isRunning false h)) else h.

(** *** The CIC pool *)

Definition allocateCIC (h : Handler) : option Z * Handler :=
  match availableCICs h with
  | [] => (None, h)
  | cic :: _ => (Some cic, set_availableCICs (setDelete cic (availableCICs h)) h)
  end.

(** *** IAM parameters *)

(** [parseInt(c, 10)] of one character: [None] is [NaN]. *)
Definition digitOf (c : ascii) : option Z :=
  let n := Z.of_nat (nat_of_ascii c) in
  if (48 <=? n) && (n <=? 57) then Some (n - 48) else None.

(** The digit octets of a number: two characters an octet, the first in
    the low half; a missing second digit is 0. *)
Fixpoint digitOctets (number : string) : list Z :=
  match number with
  | EmptyString => []
  | String c1 EmptyString => [ bor (shl 0 4) (num (digitOf c1)) ]
  | String c1 (String c2 rest) =>
      bor (shl (num (digitOf c2)) 4) (num (digitOf c1)) :: digitOctets rest
  end.

Definition writeCalledPartyNumber (number : string) : list Z :=
  [0x04; Z.of_nat (length (digitOctets number)) + 1; 0x83] ++ digitOctets number.

Definition writeCallingPartyNumber (number : string) : list Z :=
  [0x0A; Z.of_nat (length (digitOctets number)) + 2; 0x83; 0x00]
    ++ digitOctets number.

Definition writeNatureOfConnectionIndicators : list Z := [0x06; 0x01; 0x00].

(** The parameters are written into a buffer of 64 octets; a write past
    its end throws. *)
Definition buildIAMParameters (callingNumber calledNumber : string)
  : Result (list Z) :=
  let params := writeCalledPartyNumber calledNumber
                  ++ writeCallingPartyNumber callingNumber
                  ++ writeNatureOfConnectionIndicators in
  if (length params <=? 64)%nat then Ok params else Throw ERR_OUT_OF_RANGE.

Definition digitString (d : Z) : string := toString d.

Fixpoint parseDigits (buffer : list Z) : string :=
  match buffer with
  | [] => ""
  | byte :: rest =>
      let digit1 := band byte 0x0F in
      let digit2 := band (shr byte 4) 0x0F in
      (digitString digit1
         +:+ (if digit2 =? 0 then "" else digitString digit2))
        +:+ parseDigits rest
  end.

(** The loop of [parseIAMParameters] from [offset] on; [readUInt8] throws
    when the length octet is missing.  Every round advances [offset] by two
    at least, so [length parameters] rounds are enough. *)
Fixpoint parseIAMLoop (fuel : nat) (parameters : list Z) (offset : nat)
    (callingNumber calledNumber : option string)
  : Result (option string * option string) :=
  match fuel with
  | O => Ok (callingNumber, calledNumber)
  | S fuel' =>
      match parameters !! offset with
      | None => Ok (callingNumber, calledNumber)
      | Some tag =>
          match parameters !! S offset with
          | None => Throw ERR_OUT_OF_RANGE
          | Some len =>
              let offset := (offset + 2)%nat in
              let to := (offset + Z.to_nat len)%nat in
              let calledNumber :=
                if tag =? 0x04
                then Some (parseDigits (slice (offset + 1) to parameters))
                else calledNumber in
              let callingNumber :=
                if negb (tag =? 0x04) && (tag =? 0x0A)
                then Some (parseDigits (slice (offset + 2) to parameters))
                else callingNumber in
              parseIAMLoop fuel' parameters to callingNumber calledNumber
          end
      end
  end.

Definition parseIAMParameters (parameters : list Z)
  : Result (option string * option string) :=
  parseIAMLoop (length parameters) parameters 0 None None.

(** *** Cause parameters *)

Definition buildCauseParameter (cause : Z) : Result (list Z) :=
  let value := bor 0x80 cause in
  if (0 <=? value) && (value <=? 255)
  then Ok [0x12; 0x02; 0x80; value]
  else Throw ERR_OUT_OF_RANGE.

Fixpoint parseCauseLoop (fuel : nat) (parameters : list Z) (offset : nat)
  : Result Z :=
  match fuel with
  | O => Ok 16
  | S fuel' =>
      match parameters !! offset with
      | None => Ok 16
      | Some tag =>
          match parameters !! S offset with
          | None => Throw ERR_OUT_OF_RANGE
          | Some len =>
              if tag =? 0x12 then
                match parameters !! (offset + 3)%nat with
                | Some value => Ok (band value 0x7F)
                | None => Throw ERR_OUT_OF_RANGE
                end
              else parseCauseLoop fuel' parameters (offset + 2 + Z.to_nat len)
          end
      end
  end.

Definition parseCauseParameter (parameters : list Z) : Result Z :=
  parseCauseLoop (length parameters) parameters 0.

(** *** Sending *)

Definition mkMessage (type cic : Z) (parameters : list Z) : ISUPMessage :=
  {| messageType := type; cic := cic; parameters := parameters |}.

(** [if (!cic) return null]: CIC 0, once in the pool, is taken out of it
    and given to no call. *)
Definition sendIAM (now : Z) (callingNumber calledNumber : string) (h : Handler)
  : Completion (option Z) :=
  match allocateCIC h with
  | (None, h) => Return None h
  | (Some cic, h) =>
      if truthy cic then
        let call := {| c_cic := cic; c_state := outgoing_setup;
                       callingNumber := Some callingNumber;
                       calledNumber := Some calledNumber;
                       startTime := Some now |} in
        let h := set_calls (<[cic := call]> (calls h)) h in
        match buildIAMParameters callingNumber calledNumber with
        | Ok parameters => Return (Some cic) (emit (MessageOut (mkMessage 0x01 cic parameters)) h)
        | Throw e => Raise e h
        end
      else Return None h
  end.

Definition sendACM (cic : Z) (h : Handler) : Completion unit :=
  match calls h !! cic with
  | None => Raise ("Call not found for CIC: " +:+ toString cic) h
  | Some _ => Return () (emit (MessageOut (mkMessage 0x06 cic [])) h)
  end.

Definition sendANM (cic : Z) (h : Handler) : Completion unit :=
  match calls h !! cic with
  | None => Raise ("Call not found for CIC: " +:+ toString cic) h
  | Some call =>
      Return () (emit (MessageOut (mkMessage 0x09 cic []))
                      (set_calls (<[cic := set_c_state answered call]> (calls h)) h))
  end.

Definition sendREL (cic cause : Z) (h : Handler) : Completion unit :=
  match calls h !! cic with
  | None => Return () h
  | Some call =>
      let h := set_calls (<[cic := set_c_state releasing call]> (calls h)) h in
      match buildCauseParameter cause with
      | Ok parameters => Return () (emit (MessageOut (mkMessage 0x0C cic parameters)) h)
      | Throw e => Raise e h
      end
  end.

Definition sendRLC (cic : Z) (h : Handler) : Handler :=
  let h := match calls h !! cic with
           | Some _ =>
               set_availableCICs (setAdd cic (availableCICs h))
                 (set_calls (delete cic (calls h)) h)
           | None => h
           end in
  emit (MessageOut (mkMessage 0x10 cic [])) h.

(** *** Receiving *)

Definition handleIAM (now : Z) (message : ISUPMessage) (h : Handler)
  : Completion unit :=
  match parseIAMParameters (parameters message) with
  | Throw e => Raise e h
  | Ok (callingNumber, calledNumber) =>
      let call := {| c_cic := cic message; c_state := incoming_setup;
                     callingNumber := callingNumber;
                     calledNumber := calledNumber;
                     startTime := Some now |} in
      let h := set_calls (<[cic message := call]> (calls h)) h in
      let h := set_availableCICs (setDelete (cic message) (availableCICs h)) h in
      Return () (emit (IncomingCall call) h)
  end.

Definition handleACM (message : ISUPMessage) (h : Handler) : Handler :=
  match calls h !! cic message with
  | Some call => emit (CallProgress call) h
  | None => h
  end.

Definition handleANM (message : ISUPMessage) (h : Handler) : Handler :=
  match calls h !! cic message with
  | Some call =>
      let call := set_c_state answered call in
      emit (CallAnswered call) (set_calls (<[cic message := call]> (calls h)) h)
  | None => h
  end.

Definition handleREL (message : ISUPMessage) (h : Handler) : Completion unit :=
  match calls h !! cic message with
  | Some call =>
      let call := set_c_state releasing call in
      let h := set_calls (<[cic message := call]> (calls h)) h in
      match parseCauseParameter (parameters message) with
      | Ok cause => Return () (sendRLC (cic message) (emit (CallReleased call cause) h))
      | Throw e => Raise e h
      end
  | None => Return () h
  end.

Definition handleRLC (message : ISUPMessage) (h : Handler) : Handler :=
  match calls h !! cic message with
  | Some call =>
      emit (CallCleared call)
           (set_availableCICs (setAdd (cic message) (availableCICs h))
              (set_calls (delete (cic message) (calls h)) h))
  | None => h
  end.

Definition handleIncomingMessage (now : Z) (message : ISUPMessage) (h : Handler)
  : Completion unit :=
  if messageType message =? 0x01 then handleIAM now message h
  else if messageType message =? 0x06 then Return () (handleACM message h)
  else if messageType message =? 0x09 then Return () (handleANM message h)
  else if messageType message =? 0x0C then handleREL message h
  else if messageType message =? 0x10 then Return () (handleRLC message h)
  else Return () (emit (UnknownMessage message) h).

(** *** The public operations *)

Inductive Operation :=
| OpStart
| OpStop
| OpSendIAM (now : Z) (callingNumber calledNumber : string)
| OpSendACM (cic : Z)
| OpSendANM (cic : Z)
| OpSendREL (cic cause : Z)
| OpSendRLC (cic : Z)
| OpHandleIncomingMessage (now : Z) (message : ISUPMessage).

(** The state an operation leaves, whether it returns or throws. *)
Definition apply (op : Operation) (h : Handler) : Handler :=
  match op with
  | OpStart => final (start h)
  | OpStop => stop h
  | OpSendIAM now callingNumber calledNumber =>
      final (sendIAM now callingNumber calledNumber h)
  | OpSendACM cic => final (sendACM cic h)
  | OpSendANM cic => final (sendANM cic h)
  | OpSendREL cic cause => final (sendREL cic cause h)
  | OpSendRLC cic => sendRLC cic h
  | OpHandleIncomingMessage now message => final (handleIncomingMessage now message h)
  end.

(** No CIC is both free and the key of an active call. *)
Definition disjoint (h : Handler) : Prop :=
  forall cic, cic ∈ availableCICs h -> calls h !! cic = None.

End Isup.

(** ** src/types/index.ts: SIP messages and call sessions *)

Module Types.

(** [headers] is a [Record<string, string>], read by name. *)
Record SIPMessage := {
  method : string;
  uri : string;
  headers : gmap string string;
  body : option string
}.

Record RTPSession := {
  localPort : Z;
  remoteAddress : string;
  remotePort : Z;
  payloadType : Z
}.

Inductive SessionState := setup | proceeding | alerting | connected | disconnect.
Inductive Direction := inbound | outbound.

(** A session created for a message without a Call-ID header has
    [undefined] as its id. *)
Record CallSession := {
  id : option string;
  tdmChannel : option Z;
  sipCallId : option string;
  rtpSession : option RTPSession;
  state : SessionState;
  direction : Direction;
  startTime : Z
}.

Definition set_state (x : SessionState) (s : CallSession) : CallSession :=
  {| id := id s; tdmChannel := tdmChannel s; sipCallId := sipCallId s;
     rtpSession := rtpSession s; state := x; direction := direction s;
     startTime := startTime s |}.

Definition set_rtpSession (x : option RTPSession) (s : CallSession) : CallSession :=
  {| id := id s; tdmChannel := tdmChannel s; sipCallId := sipCallId s;
     rtpSession := x; state := state s; direction := direction s;
     startTime := startTime s |}.

(** The double quote character. *)
Definition dquote : string := String (ascii_of_nat 34) EmptyString.

(** [`${s}`] of a string that may be [undefined]. *)
Definition orUndefined (s : option string) : string := default "undefined" s.

(** [s || ''] *)
Definition orEmpty (s : option string) : string := default "" s.

End Types.

(** ** The ISUP to SIP-T translator (src/interfaces/freetdm.ts) *)

Module ProtocolTranslator.
Import JS Types.
Local Open Scope Z_scope.

Record ProtocolTranslationRules := {
  causeCodeMapping : gmap Z Z;
  progressIndicatorMapping : gmap Z Z;
  numberingPlanMapping : gmap string Z;
  natureOfAddressMapping : gmap string Z
}.

Record TranslationContext := {
  callSession : CallSession;
  variant : option string
}.

(** [parseISUPCause]: the parameters are not read. *)
Definition parseISUPCause (parameters : list Z) : Z := 16.

Definition reasonTexts : list (Z * string) :=
  [ (1, "Unallocated number");
    (16, "Normal call clearing");
    (17, "User busy");
    (18, "No user responding");
    (19, "No answer from user");
    (21, "Call rejected");
    (22, "Number changed");
    (27, "Destination out of order");
    (28, "Invalid number format");
    (31, "Normal, unspecified");
    (34, "No circuit/channel available");
    (38, "Network out of order");
    (41, "Temporary failure");
    (42, "Switching equipment congestion") ].

Definition getQ850ReasonText (cause : Z) : string :=
  match List.find (fun e => fst e =? cause) reasonTexts with
  | Some (_, text) => text
  | None => "Unknown"
  end.

(** The value of a Reason header for a Q.850 cause. *)
Definition reasonHeader (cause : Z) : string :=
  "Q.850;cause=" +:+ toString cause +:+ ";text=" +:+ dquote
    +:+ getQ850ReasonText cause +:+ dquote.

Definition translateACMToProgress (isupMessage : Isup.ISUPMessage)
    (rules : ProtocolTranslationRules) (context : TranslationContext) : SIPMessage :=
  {| method := "183 Session Progress";
     uri := "";
     headers := <["Call-ID" := orEmpty (sipCallId (callSession context))]>
                  (<["CSeq" := "1 INVITE"]> ∅);
     body := None |}.

Definition translateRELToBye (isupMessage : Isup.ISUPMessage)
    (rules : ProtocolTranslationRules) (context : TranslationContext) : SIPMessage :=
  let cause := parseISUPCause (Isup.parameters isupMessage) in
  {| method := "BYE";
     uri := "";
     headers := <["Call-ID" := orEmpty (sipCallId (callSession context))]>
                  (<["CSeq" := "2 BYE"]>
                     (<["Reason" := reasonHeader cause]> ∅));
     body := None |}.

Section Translate.

(** The translations of IAM and ANM build a Call-ID and SDP bodies from
    the clock and a random source; they are taken as given. *)
Variable translateIAMToSIPT :
  Isup.ISUPMessage -> ProtocolTranslationRules -> TranslationContext -> SIPMessage.
Variable translateANMToOK :
  Isup.ISUPMessage -> ProtocolTranslationRules -> TranslationContext -> SIPMessage.

(** [translationRules] is the translator's table of rule sets, keyed
    ["<variant>-to-sip"]. *)
Definition translateISUPToSIPT (translationRules : gmap string ProtocolTranslationRules)
    (isupMessage : Isup.ISUPMessage) (context : TranslationContext)
  : Result SIPMessage :=
  let variant := match variant context with
                 | Some v => if bool_decide (v = "") then "itu" else v
                 | None => "itu"
                 end in
  match translationRules !! (variant +:+ "-to-sip") with
  | None => Throw ("No translation rules found for variant: " +:+ variant)
  | Some rules =>
      let type := Isup.messageType isupMessage in
      if type =? 0x01 then Ok (translateIAMToSIPT isupMessage rules context)
      else if type =? 0x06 then Ok (translateACMToProgress isupMessage rules context)
      else if type =? 0x09 then Ok (translateANMToOK isupMessage rules context)
      else if type =? 0x0C then Ok (translateRELToBye isupMessage rules context)
      else Throw ("Unsupported ISUP message type: " +:+ toString type)
  end.

End Translate.

End ProtocolTranslator.

(** ** src/protocols/sip.ts *)

Module SIPHandler.
Import JS Types.
Local Open Scope Z_scope.

Inductive Event :=
| Started
| Stopped
| SessionCreated (session : CallSession)
| SessionUpdated (session : CallSession)
| SessionTerminated (session : CallSession)
| MessageOut (message : SIPMessage)
| IncomingCall (session : CallSession) (message : SIPMessage)
| Response (callId : option string) (statusCode : Z) (message : SIPMessage).

(** [sessions] is keyed by Call-ID; the Call-ID of a message without that
    header is [undefined], which is a key like any other. *)
Record Handler := {
  sessions : gmap (option string) CallSession;
  isRunning : bool;
  emitted : list Event
}.

Definition set_sessions (x : gmap (option string) CallSession) (h : Handler)
  : Handler :=
  {| sessions := x; isRunning := isRunning h; emitted := emitted h |}.
Definition emit (e : Event) (h : Handler) : Handler :=
  {| sessions := sessions h; isRunning := isRunning h;
     emitted := emitted h ++ [e] |}.

Inductive Completion : Type :=
| Return (h : Handler)
| Raise (message : string) (h : Handler).

Definition createSession (now : Z) (callId : option string) (direction : Direction)
    (h : Handler) : CallSession * Handler :=
  let session := {| id := callId; tdmChannel := None; sipCallId := callId;
                    rtpSession := None; state := setup; direction := direction;
                    startTime := now |} in
  (session, emit (SessionCreated session)
                 (set_sessions (<[callId := session]> (sessions h)) h)).

(** [updateSession(callId, { state })]: the only update the handler makes. *)
Definition updateSession (callId : option string) (state : SessionState)
    (h : Handler) : Handler :=
  match sessions h !! callId with
  | Some session =>
      let session := set_state state session in
      emit (SessionUpdated session)
           (set_sessions (<[callId := session]> (sessions h)) h)
  | None => h
  end.

Definition terminateSession (callId : option string) (h : Handler) : Handler :=
  match sessions h !! callId with
  | Some session =>
      emit (SessionTerminated (set_state disconnect session))
           (set_sessions (delete callId (sessions h)) h)
  | None => h
  end.

Definition responseMessage (callId : option string) (statusCode : Z)
    (reasonPhrase : string) (sdp : option string) : SIPMessage :=
  {| method := toString statusCode +:+ " " +:+ reasonPhrase;
     uri := "";
     headers :=
       match callId with
       | Some c => <["Call-ID" := c]> (<["CSeq" := "1 INVITE"]> ∅)
       | None => <["CSeq" := "1 INVITE"]> ∅
       end;
     body := sdp |}.

Definition sendResponse (callId : option string) (statusCode : Z)
    (reasonPhrase : string) (sdp : option string) (h : Handler) : Completion :=
  match sessions h !! callId with
  | None => Raise ("Session not found: " +:+ orUndefined callId) h
  | Some session =>
      let session :=
        if (200 <=? statusCode) && (statusCode <? 300) then set_state connected session
        else if (180 <=? statusCode) && (statusCode <? 200) then set_state alerting session
        else session in
      Return (emit (MessageOut (responseMessage callId statusCode reasonPhrase sdp))
                   (set_sessions (<[callId := session]> (sessions h)) h))
  end.

Definition handleBye (callId : option string) (h : Handler) : Completion :=
  sendResponse callId 200 "OK" None (terminateSession callId h).

(** [/^\d{3}/] and [parseInt] of the status line. *)
Definition isDigit (c : ascii) : bool :=
  let n := nat_of_ascii c in (48 <=? n)%nat && (n <=? 57)%nat.

Definition startsWithThreeDigits (s : string) : bool :=
  match s with
  | String a (String b (String c _)) => isDigit a && isDigit b && isDigit c
  | _ => false
  end.

Fixpoint leadingNumber (s : string) (acc : Z) : Z :=
  match s with
  | String c rest =>
      if isDigit c then leadingNumber rest (10 * acc + (Z.of_nat (nat_of_ascii c) - 48))
      else acc
  | EmptyString => acc
  end.

Section Incoming.

(** The media description of an INVITE body: the [rtpSession] that
    [parseSDP] leaves in the session, if it sets one. *)
Variable parseSDP : string -> option RTPSession.

Definition handleInvite (now : Z) (message : SIPMessage) (h : Handler) : Handler :=
  let callId := headers message !! "Call-ID" in
  let '(session, h) := createSession now callId inbound h in
  let session :=
    match body message with
    | Some sdp =>
        if bool_decide (sdp = "") then session
        else match parseSDP sdp with
             | Some rtp => set_rtpSession (Some rtp) session
             | None => session
             end
    | None => session
    end in
  emit (IncomingCall session message)
       (set_sessions (<[callId := session]> (sessions h)) h).

Definition handleResponse (message : SIPMessage) (h : Handler) : Handler :=
  let callId := headers message !! "Call-ID" in
  let statusCode := leadingNumber (method message) 0 in
  let h :=
    if (200 <=? statusCode) && (statusCode <? 300) then updateSession callId connected h
    else if 400 <=? statusCode then terminateSession callId h
    else h in
  emit (Response callId statusCode message) h.

Definition handleIncomingMessage (now : Z) (message : SIPMessage) (h : Handler)
  : Completion :=
  let callId := headers message !! "Call-ID" in
  if bool_decide (method message = "INVITE") then Return (handleInvite now message h)
  else if bool_decide (method message = "BYE") then handleBye callId h
  else if startsWithThreeDigits (method message) then Return (handleResponse message h)
  else Return h.

End Incoming.

End SIPHandler.

(** * Properties *)

(** ** Octets *)

Lemma for_octets_spec (f : Z -> bool) :
  JS.for_octets f = true -> forall b, JS.octet b -> f b = true.
Proof.
  unfold JS.for_octets, JS.all_octets, JS.octet.
  rewrite forallb_forall. intros H b Hb. apply H.
  apply list_elem_of_In, list_elem_of_fmap.
  exists (Z.to_nat b). split; [lia|].
  apply list_elem_of_In, in_seq. lia.
Qed.

Lemma for_octets_impl (p q : Z -> bool) :
  JS.for_octets (fun b => implb (p b) (q b)) = true ->
  forall b, JS.octet b -> p b = true -> q b = true.
Proof.
  intros H b Hb Hp. pose proof (for_octets_spec _ H b Hb) as H'.
  cbv beta in H'. rewrite Hp in H'. exact H'.
Qed.

Lemma octets_app (l1 l2 : list Z) :
  JS.octets (l1 ++ l2) <-> JS.octets l1 /\ JS.octets l2.
Proof. apply Forall_app. Qed.

Lemma octets_cons (b : Z) (l : list Z) :
  JS.octets (b :: l) <-> JS.octet b /\ JS.octets l.
Proof. apply Forall_cons. Qed.

(** ** The frame codec *)

Section LAPDCodec.
Import JS DChannel.
Local Open Scope Z_scope.

(** An input of four octets or more always decodes. *)
Lemma parseLAPDFrame_long (data : list Z) :
  (4 <= length data)%nat ->
  parseLAPDFrame data =
    Ok {| address := parseAddress (num (data !! 0%nat)) (num (data !! 1%nat));
          control := fst (parseControl data);
          information :=
            if (snd (parseControl data) <? length data - 2)%nat
            then Some (slice (snd (parseControl data)) (length data - 2) data)
            else None;
          fcs := readUInt16LE data (length data - 2) |}.
Proof.
  intros Hlen. unfold parseLAPDFrame.
  destruct (Nat.ltb_spec (length data) 4) as [?|_]; [lia|].
  destruct (parseControl data) as [control offset]. reflexivity.
Qed.

Lemma parseLAPDFrame_short (data : list Z) :
  (length data < 4)%nat -> parseLAPDFrame data = Throw "LAPD frame too short".
Proof.
  intros Hlen. unfold parseLAPDFrame.
  destruct (Nat.ltb_spec (length data) 4) as [_|?]; [reflexivity|lia].
Qed.

(** C2, as the code has it: the decoder never calculates an FCS.  Every
    input of at least four octets decodes to a frame, whose [fcs] field is
    the last two octets read little-endian, whatever the CRC-16 of the
    octets before them is. *)
Theorem parseLAPDFrame_accepts_any_fcs (data : list Z) :
  (4 <= length data)%nat ->
  exists frame,
    parseLAPDFrame data = Ok frame
    /\ fcs frame = readUInt16LE data (length data - 2).
Proof.
  intros Hlen. rewrite parseLAPDFrame_long by done.
  eexists. split; reflexivity.
Qed.

Lemma parseLAPDFrame_accepts_any_fcs_witness :
  exists frame,
    parseLAPDFrame [2; 1; 127; 0; 0] = Ok frame
    /\ fcs frame = readUInt16LE [2; 1; 127; 0; 0] (length [2; 1; 127; 0; 0] - 2).
Proof. apply parseLAPDFrame_accepts_any_fcs. simpl. lia. Defined.

(** C2 as stated fails: the SABME frame below carries the FCS 0, the CRC-16
    of its address and control octets is 57674, and it is decoded. *)
Lemma parseLAPDFrame_bad_fcs_decoded :
  readUInt16LE [2; 1; 127; 0; 0] 3 = 0
  /\ calculateFCS [2; 1; 127] = 57674
  /\ parseLAPDFrame [2; 1; 127; 0; 0] =
       Ok {| address := {| a_sapi := 0; a_cr := true; a_ea0 := false;
                           a_tei := 0; a_ea1 := true |};
             control := {| c_type := FrameU; ns := None; nr := None;
                           pf := Some true; supervisory := None;
                           unnumbered := Some SABME |};
             information := None;
             fcs := 0 |}.
Proof. repeat split; vm_compute; reflexivity. Qed.

(** C1 at a call reference of two octets with the flag set: the decoder
    reads the flag from the high bit of the first call reference octet, the
    encoder sets bit 7 of the last one. *)
Theorem q931_flag_lost_at_length_two :
  parseQ931Message [8; 2; 0x80; 1; 5] =
    Ok {| protocolDiscriminator := 8;
          callReference := {| cr_length := 2; cr_flag := true; cr_value := 1 |};
          messageType := Some 5;
          informationElements := [] |}
  /\ buildQ931Message
       {| protocolDiscriminator := 8;
          callReference := {| cr_length := 2; cr_flag := true; cr_value := 1 |};
          messageType := Some 5;
          informationElements := [] |} = [8; 2; 0; 0x81; 5].
Proof. split; vm_compute; reflexivity. Qed.

End LAPDCodec.

(** ** Round trips of the frame codec *)

Section RoundTrip.
Import JS DChannel.
Local Open Scope Z_scope.
Local Arguments band : simpl never.
Local Arguments bor : simpl never.
Local Arguments shl : simpl never.
Local Arguments shr : simpl never.
Local Arguments toUint8 : simpl never.
Local Arguments calculateFCS : simpl never.
Local Arguments uint16LE : simpl never.















End RoundTrip.

(** ** Round trips of the Q.931 codec *)

Section Q931RoundTrip.
Import JS DChannel.
Local Open Scope Z_scope.
Local Arguments band : simpl never.
Local Arguments bor : simpl never.
Local Arguments shl : simpl never.
Local Arguments shr : simpl never.
Local Arguments toUint8 : simpl never.

(** The octets of well-formed information elements: single-octet elements
    (high bit set) and elements with a length octet and as many octets of
    data as it says. *)
Inductive wellFormedIEs : list Z -> Prop :=
| wf_end : wellFormedIEs []
| wf_single (ieId : Z) (rest : list Z) :
    truthy (band ieId 0x80) = true ->
    wellFormedIEs rest ->
    wellFormedIEs (ieId :: rest)
| wf_variable (ieId : Z) (data rest : list Z) :
    truthy (band ieId 0x80) = false ->
    octet (Z.of_nat (length data)) ->
    wellFormedIEs rest ->
    wellFormedIEs (ieId :: Z.of_nat (length data) :: data ++ rest).

Lemma toUint8_octet (b : Z) : octet b -> toUint8 b = b.
Proof. unfold octet, toUint8. intros. by apply Z.mod_small. Qed.

(** Unknown elements included, the elements are decoded one by one and
    encoded to the same octets in the same order. *)
Lemma parseIEs_roundtrip (ies : list Z) :
  wellFormedIEs ies -> octets ies ->
  forall fuel, (length ies <= fuel)%nat ->
  concat (buildIE <$> parseIEs fuel ies) = ies.
Proof.
  induction 1 as [|ieId rest Hid Hwf IH|ieId data rest Hid Hlen Hwf IH];
    intros Hoct fuel Hfuel.
  - by destruct fuel.
  - destruct fuel as [|fuel]; [simpl in Hfuel; lia|].
    apply octets_cons in Hoct as [Hb Hoct].
    cbn [parseIEs]. rewrite Hid. cbn [fmap list_fmap concat].
    unfold buildIE at 1; cbn [ie_id ie_data]. rewrite Hid, toUint8_octet by done.
    cbn [app]. f_equal. apply IH; [done|]. simpl in Hfuel. lia.
  - destruct fuel as [|fuel]; [simpl in Hfuel; lia|].
    apply octets_cons in Hoct as [Hb Hoct].
    apply octets_cons in Hoct as [_ Hoct].
    apply octets_app in Hoct as [_ Hoct].
    cbn [parseIEs]. rewrite Hid, Nat2Z.id, take_app_length, drop_app_length.
    cbn [fmap list_fmap concat].
    unfold buildIE at 1; cbn [ie_id ie_data]. rewrite Hid, !toUint8_octet by done.
    cbn [app]. do 2 f_equal. f_equal. apply IH; [done|].
    simpl in Hfuel. rewrite length_app in Hfuel. lia.
Qed.

(** A well-formed Q.931 message whose call reference has at most one octet,
    or two octets with the flag bit clear. *)
Definition wellFormedCallRef (cr : list Z) : Prop :=
  match cr with
  | [] | [_] => True
  | [c1; _] => c1 < 128
  | _ => False
  end.

Lemma callRef1_check :
  for_octets (fun c =>
    toUint8 (band (shr (if truthy (band c 0x80)
                        then bor (bor (shl 0 8) (band c 0x7F)) 0x80
                        else bor (shl 0 8) (band c 0x7F)) 0) 0xFF) =? c) = true.
Proof. vm_compute. reflexivity. Qed.

Lemma callRef1_roundtrip (c : Z) :
  octet c ->
  toUint8 (band (shr (if truthy (band c 0x80)
                      then bor (bor (shl 0 8) (band c 0x7F)) 0x80
                      else bor (shl 0 8) (band c 0x7F)) 0) 0xFF) = c.
Proof.
  intros Hc. pose proof (for_octets_spec _ callRef1_check c Hc) as H.
  cbv beta in H. apply Z.eqb_eq. exact H.
Qed.

Lemma toInt32_small (z : Z) : - 2 ^ 31 <= z < 2 ^ 31 -> toInt32 z = z.
Proof. unfold toInt32. intros. rewrite Z.mod_small; lia. Qed.

Lemma lor_high_low (hi lo : Z) :
  0 <= lo < 256 -> Z.lor (hi * 256) lo = hi * 256 + lo.
Proof.
  intros Hlo. symmetry. apply Z.add_nocarry_lor, Z.bits_inj'. intros n Hn.
  rewrite Z.land_spec, Z.bits_0.
  destruct (Z.lt_ge_cases n 8) as [Hlt|Hge].
  - replace (hi * 256) with (Z.shiftl hi 8) by (rewrite Z.shiftl_mul_pow2; lia).
    by rewrite Z.shiftl_spec_low.
  - destruct (Z.eq_dec lo 0) as [->|Hne]; [by rewrite Z.bits_0, andb_false_r|].
    rewrite (Z.bits_above_log2 lo n), andb_false_r; [done|lia|].
    apply Z.lt_le_trans with 8; [|done]. apply Z.log2_lt_pow2; lia.
Qed.

Lemma callRef2_check :
  for_octets (fun c1 =>
    implb (c1 <? 128)
      ((shl (bor (shl 0 8) (band c1 0x7F)) 8 =? c1 * 256)
       && negb (truthy (band c1 0x80)))) = true.
Proof. vm_compute. reflexivity. Qed.

Lemma callRef2_high (c1 : Z) :
  octet c1 -> c1 < 128 ->
  shl (bor (shl 0 8) (band c1 0x7F)) 8 = c1 * 256 /\ truthy (band c1 0x80) = false.
Proof.
  intros H1 Hlt.
  pose proof (for_octets_impl _ _ callRef2_check c1 H1) as H. cbv beta in H.
  specialize (H (proj2 (Z.ltb_lt c1 128) Hlt)).
  apply andb_true_iff in H as [Ha Hf].
  apply Z.eqb_eq in Ha. apply negb_true_iff in Hf.
  split; [exact Ha|exact Hf].
Qed.

Lemma band_0xFF (v : Z) : 0 <= v < 2 ^ 31 -> band v 0xFF = v mod 256.
Proof.
  intros Hv. unfold band. rewrite !toInt32_small by lia.
  change 255 with (Z.ones 8). by rewrite Z.land_ones.
Qed.

Lemma callRef2_roundtrip (c1 c2 : Z) :
  octet c1 -> octet c2 -> c1 < 128 ->
  let crv := bor (shl (bor (shl 0 8) (band c1 0x7F)) 8) (band c2 0xFF) in
  toUint8 (band (shr crv 8) 0xFF) = c1
  /\ toUint8 (band (shr crv 0) 0xFF) = c2
  /\ truthy (band c1 0x80) = false.
Proof.
  intros H1 H2 Hlt crv. unfold octet in H1, H2.
  destruct (callRef2_high c1 H1 Hlt) as [Hhigh Hflag].
  assert (Hv : crv = c1 * 256 + c2).
  { subst crv. rewrite Hhigh, band_0xFF, Z.mod_small by lia.
    unfold bor. rewrite !toInt32_small by lia. apply lor_high_low. lia. }
  rewrite Hv. unfold shr. rewrite !toInt32_small by lia.
  change (8 mod 32) with 8. change (0 mod 32) with 0.
  rewrite Z.shiftr_div_pow2, Z.shiftr_0_r by lia.
  change (2 ^ 8) with 256.
  rewrite Z.div_add_l, (Z.div_small c2), Z.add_0_r by lia.
  rewrite !band_0xFF by lia.
  rewrite (Z.add_comm (c1 * 256)), Z_mod_plus_full, (Z.mod_small c2) by lia.
  rewrite (Z.mod_small c1), !toUint8_octet by (unfold octet; lia).
  split; [reflexivity|]. split; [reflexivity|exact Hflag].
Qed.

(** Decoding a well-formed Q.931 message and encoding the result gives the
    message back when the call reference has at most one octet, or two with
    the flag bit clear; unknown information elements are kept octet for
    octet, in order. *)
Theorem q931_roundtrip (pd : Z) (cr : list Z) (mt : Z) (ies : list Z) :
  octets (pd :: cr ++ mt :: ies) ->
  wellFormedCallRef cr ->
  wellFormedIEs ies ->
  let data := pd :: Z.of_nat (length cr) :: cr ++ mt :: ies in
  exists message,
    parseQ931Message data = Ok message
    /\ buildQ931Message message = data.
Proof.
  intros Hoct Hcr Hies data.
  apply octets_cons in Hoct as [Hpd Hoct].
  apply octets_app in Hoct as [Hcro Hoct].
  apply octets_cons in Hoct as [Hmt Hoct].
  assert (Hfuel : forall fuel, (length ies <= fuel)%nat ->
            concat (buildIE <$> parseIEs fuel ies) = ies)
    by (intros; by apply parseIEs_roundtrip).
  destruct cr as [|c1 [|c2 [|c3 cr]]]; try contradiction.
  - (* no call reference octet *)
    eexists; split.
    + unfold parseQ931Message. subst data. cbn [length app]. reflexivity.
    + unfold buildQ931Message; cbn [callReference cr_flag cr_value cr_length
        protocolDiscriminator messageType informationElements].
      subst data. cbn [lookup list_lookup drop length app num default].
      change (Z.to_nat (band (id (Z.of_nat 0)) 15)) with 0%nat.
      cbn [Nat.add lookup list_lookup drop buildCallRefValue app].
      rewrite Hfuel by (simpl; lia).
      change (num (Some mt)) with mt.
      by rewrite !toUint8_octet.
  - (* one octet *)
    apply octets_cons in Hcro as [Hc1 _].
    eexists; split.
    + unfold parseQ931Message. subst data. cbn [length app]. reflexivity.
    + unfold buildQ931Message; cbn [callReference cr_flag cr_value cr_length
        protocolDiscriminator messageType informationElements].
      subst data. cbn [lookup list_lookup drop length app num default].
      change (Z.to_nat (band (id (Z.of_nat 1)) 15)) with 1%nat.
      cbn [Nat.add lookup list_lookup drop buildCallRefValue app parseCallRefValue
           Nat.eqb id].
      rewrite Hfuel by (simpl; lia).
      change (num (Some ?x)) with x.
      change (Z.of_nat 0 * 8) with 0.
      rewrite callRef1_roundtrip by done.
      by rewrite !toUint8_octet.
  - (* two octets, flag clear *)
    apply octets_cons in Hcro as [Hc1 Hcro].
    apply octets_cons in Hcro as [Hc2 _].
    destruct (callRef2_roundtrip c1 c2 Hc1 Hc2 Hcr) as (Hb1 & Hb2 & Hflag).
    eexists; split.
    + unfold parseQ931Message. subst data. cbn [length app]. reflexivity.
    + unfold buildQ931Message; cbn [callReference cr_flag cr_value cr_length
        protocolDiscriminator messageType informationElements].
      subst data. cbn [lookup list_lookup drop length app num default].
      change (Z.to_nat (band (id (Z.of_nat 2)) 15)) with 2%nat.
      cbn [Nat.add lookup list_lookup drop buildCallRefValue app parseCallRefValue
           Nat.eqb id].
      rewrite Hfuel by (simpl; lia).
      change (num (Some ?x)) with x.
      change (id c1) with c1. rewrite Hflag.
      change (Z.of_nat 1 * 8) with 8. change (Z.of_nat 0 * 8) with 0.
      cbv zeta in Hb1, Hb2. rewrite Hb1, Hb2.
      by rewrite !toUint8_octet.
Qed.

End Q931RoundTrip.

(** Closed facts about concrete runs are settled by evaluation, conjunct
    by conjunct. *)
Ltac evaluate :=
  repeat match goal with |- _ /\ _ => split end;
  vm_compute; reflexivity.

(** ** The LAPD engine *)

Section Engine.
Import JS DChannel.
Local Open Scope Z_scope.

(** A FAS endpoint with the default timers. *)
Definition fasConfig : DChannelConfig :=
  {| mode := FAS; spanId := 1; channelId := 16; tei := 0; sapi := 0; ces := 0;
     primaryInterface := None; backupInterface := None; interfaceGroup := None;
     maxRetransmissions := 3;
     t200Timer := 1000; t201Timer := 1000; t202Timer := 2000; t203Timer := 10000;
     n200Counter := 3; n201Counter := 260 |}.

Definition uaFrame : list Z := [0; 1; 0x73; 0; 0].

Definition setupMessage : Q931Message :=
  {| protocolDiscriminator := 0x08;
     callReference := {| cr_length := 1; cr_flag := false; cr_value := 1 |};
     messageType := Some 0x05;
     informationElements := [] |}.

Definition sabme : LAPDFrame := createUnnumberedFrame SABME true (new fasConfig).


(** *** What sending and acknowledging do to the state variables *)





(** Two messages sent in a row both carry N(S) = 0; the peer's RR with
    N(R) = 1 then moves V(A) to 1, past V(S) = 0. *)
Lemma acknowledgement_passes_vs :
  exists h,
    run [InStart; InFrame uaFrame; InSendQ931 NFASManager.statusEnquiry;
         InSendQ931 setupMessage; InFrame [0; 1; 0x01; 0x02; 0; 0]]
        (new fasConfig) = Some h
    /\ vs h = 0 /\ va h = 1
    /\ acknowledgePending h = [sabme].
Proof. eexists. split; [vm_compute; reflexivity|]. evaluate. Qed.

(** *** T200 expiry *)








End Engine.

(** ** The CIC pool of the ISUP handler *)

Section CICPool.
Import Isup.
Local Open Scope Z_scope.
Local Arguments setAdd : simpl never.
Local Arguments setDelete : simpl never.

Lemma elem_of_setDelete (x c : Z) (s : list Z) :
  x ∈ setDelete c s <-> x ∈ s /\ x <> c.
Proof.
  unfold setDelete. rewrite !list_elem_of_In, filter_In, negb_true_iff.
  rewrite bool_decide_eq_false. done.
Qed.

Lemma elem_of_setAdd (x c : Z) (s : list Z) :
  x ∈ setAdd c s <-> x ∈ s \/ x = c.
Proof.
  unfold setAdd. case_bool_decide as Hc.
  - split; [by left|]. intros [?| ->]; done.
  - rewrite elem_of_app, list_elem_of_singleton. done.
Qed.

Lemma disjoint_new : disjoint new.
Proof. intros cic _. apply lookup_empty. Qed.

(** Replacing the record of an active call keeps the pool apart from it. *)
Lemma disjoint_update (h : Handler) (cic : Z) (call call' : ISUPCall) :
  disjoint h -> calls h !! cic = Some call ->
  disjoint (set_calls (<[cic := call']> (calls h)) h).
Proof.
  intros Hd Hc x Hx. cbn in *.
  rewrite lookup_insert_ne; [by apply Hd|].
  intros ->. rewrite (Hd _ Hx) in Hc. discriminate.
Qed.

Lemma disjoint_emit (e : Event) (h : Handler) : disjoint h -> disjoint (emit e h).
Proof. intros Hd. exact Hd. Qed.

(** Releasing: the call goes and its CIC joins the pool. *)
Lemma disjoint_release (h : Handler) (cic : Z) :
  disjoint h ->
  disjoint (set_availableCICs (setAdd cic (availableCICs h))
              (set_calls (delete cic (calls h)) h)).
Proof.
  intros Hd x Hx. cbn in *. apply elem_of_setAdd in Hx as [Hx| ->].
  - rewrite lookup_delete_None. right. by apply Hd.
  - apply lookup_delete_eq.
Qed.

(** Seizing: the CIC leaves the pool and gets a call. *)
Lemma disjoint_seize (h : Handler) (cic : Z) (call : ISUPCall) :
  disjoint h ->
  disjoint (set_availableCICs (setDelete cic (availableCICs h))
              (set_calls (<[cic := call]> (calls h)) h)).
Proof.
  intros Hd x Hx. cbn in *. apply elem_of_setDelete in Hx as [Hx Hne].
  rewrite lookup_insert_ne by done. by apply Hd.
Qed.

Lemma disjoint_sendRLC (cic : Z) (h : Handler) : disjoint h -> disjoint (sendRLC cic h).
Proof.
  intros Hd. unfold sendRLC. apply disjoint_emit.
  destruct (calls h !! cic); [by apply (disjoint_release h)|done].
Qed.

Lemma disjoint_allocateCIC (h : Handler) :
  disjoint h -> disjoint (snd (allocateCIC h)).
Proof.
  intros Hd. unfold allocateCIC. destruct (availableCICs h) as [|cic rest] eqn:E; [done|].
  intros x Hx. cbn in *. rewrite <- E in Hx.
  apply elem_of_setDelete in Hx as [Hx _]. by apply Hd.
Qed.

Lemma disjoint_sendIAM (now : Z) (callingNumber calledNumber : string) (h : Handler) :
  disjoint h -> disjoint (final (sendIAM now callingNumber calledNumber h)).
Proof.
  intros Hd. unfold sendIAM.
  pose proof (disjoint_allocateCIC h Hd) as Ha.
  assert (Hcic : forall cic, fst (allocateCIC h) = Some cic ->
                   cic ∉ availableCICs (snd (allocateCIC h))).
  { unfold allocateCIC. destruct (availableCICs h) as [|c rest] eqn:E; [done|].
    intros cic [= <-]. cbn. rewrite <- E. rewrite elem_of_setDelete. tauto. }
  destruct (allocateCIC h) as [[cic|] h1]; cbn [fst snd] in *; [|done].
  destruct (JS.truthy cic); [|done].
  assert (disjoint (set_calls (<[cic := {| c_cic := cic; c_state := outgoing_setup;
            callingNumber := Some callingNumber; calledNumber := Some calledNumber;
            startTime := Some now |}]> (calls h1)) h1)) as Hd1.
  { intros x Hx. cbn in *. rewrite lookup_insert_ne; [by apply Ha|].
    intros ->. by apply (Hcic x). }
  destruct (buildIAMParameters callingNumber calledNumber); exact Hd1.
Qed.

Lemma disjoint_handleIncomingMessage (now : Z) (message : ISUPMessage) (h : Handler) :
  disjoint h -> disjoint (final (handleIncomingMessage now message h)).
Proof.
  intros Hd. unfold handleIncomingMessage.
  destruct (messageType message =? 1).
  { unfold handleIAM. destruct (parseIAMParameters (parameters message)) as [[c d]|];
      [|done]. cbn [final]. apply disjoint_emit, (disjoint_seize h), Hd. }
  destruct (messageType message =? 6).
  { unfold handleACM. by destruct (calls h !! cic message). }
  destruct (messageType message =? 9).
  { unfold handleANM. destruct (calls h !! cic message) eqn:E; [|done].
    cbn [final]. apply disjoint_emit. by eapply disjoint_update. }
  destruct (messageType message =? 12).
  { unfold handleREL. destruct (calls h !! cic message) eqn:E; [|done].
    pose proof (disjoint_update h _ _ (set_c_state releasing i) Hd E) as Hd1.
    destruct (parseCauseParameter (parameters message)); cbn [final]; [|done].
    apply disjoint_sendRLC, disjoint_emit, Hd1. }
  destruct (messageType message =? 16).
  { unfold handleRLC. destruct (calls h !! cic message); [|done].
    cbn [final]. apply disjoint_emit, (disjoint_release h), Hd. }
  done.
Qed.

(** C10: every public operation of the handler, whether it returns or
    throws, leaves no CIC both in the pool and the key of an active call. *)
Theorem operations_keep_disjoint (op : Operation) (h : Handler) :
  disjoint h -> disjoint (apply op h).
Proof.
  intros Hd. destruct op; cbn [apply].
  - unfold start. by destruct (isRunning h).
  - unfold stop. destruct (isRunning h); [|done]. intros x _. apply lookup_empty.
  - by apply disjoint_sendIAM.
  - unfold sendACM. by destruct (calls h !! cic0).
  - unfold sendANM. destruct (calls h !! cic0) eqn:E; [|done].
    cbn [final]. apply disjoint_emit. by eapply disjoint_update.
  - unfold sendREL. destruct (calls h !! cic0) eqn:E; [|done].
    pose proof (disjoint_update h _ _ (set_c_state releasing i) Hd E) as Hd1.
    by destruct (buildCauseParameter cause).
  - by apply disjoint_sendRLC.
  - by apply disjoint_handleIncomingMessage.
Qed.

Lemma operations_keep_disjoint_witness :
  disjoint (apply (OpSendIAM 0 "5551001" "5551002") new).
Proof. apply operations_keep_disjoint, disjoint_new. Defined.

(** C7, as the code has it: the pool is read in insertion order.  After
    the CIC of an active call is released, the next allocation returns the
    CIC at the head of the pool as it was, and the released CIC only when
    the pool was empty. *)
Theorem release_then_allocate (h : Handler) (c : Z) (call : ISUPCall) :
  calls h !! c = Some call ->
  fst (allocateCIC (sendRLC c h)) = Some (hd c (availableCICs h)).
Proof.
  intros Hc. unfold sendRLC, allocateCIC. rewrite Hc. cbn.
  unfold setAdd. case_bool_decide as Hin.
  - destruct (availableCICs h); [by apply elem_of_nil in Hin|done].
  - by destruct (availableCICs h).
Qed.

(** Two calls are set up, on CICs 1 and 2. *)
Definition twoCalls : Handler :=
  final (sendIAM 0 "5551003" "5551004" (final (sendIAM 0 "5551001" "5551002" new))).

Lemma release_then_allocate_witness :
  fst (allocateCIC (sendRLC 1 twoCalls)) = Some (hd 1 (availableCICs twoCalls)).
Proof.
  apply (release_then_allocate twoCalls 1
           {| c_cic := 1; c_state := outgoing_setup;
              callingNumber := Some "5551001"; calledNumber := Some "5551002";
              startTime := Some 0 |}).
  vm_compute. reflexivity.
Defined.

(** C7 as stated fails: CICs 1 and 2 are in use, CIC 1 is released, no
    free CIC is smaller than 1, and the next allocation returns 3. *)
Lemma release_then_allocate_not_lowest :
  availableCICs twoCalls = Z.of_nat <$> seq 3 998
  /\ availableCICs (sendRLC 1 twoCalls) = (Z.of_nat <$> seq 3 998) ++ [1]
  /\ forallb (fun c => 1 <=? c) (availableCICs (sendRLC 1 twoCalls)) = true
  /\ fst (allocateCIC (sendRLC 1 twoCalls)) = Some 3.
Proof. evaluate. Qed.

End CICPool.

(** ** ISUP REL to SIP BYE *)

Section RelToBye.
Import Types ProtocolTranslator.
Local Open Scope Z_scope.

(** REL on CIC 7 whose cause parameter carries cause 17, user busy. *)
Definition relUserBusy : Isup.ISUPMessage :=
  {| Isup.messageType := 0x0C; Isup.cic := 7;
     Isup.parameters := [0x12; 0x02; 0x80; 0x91] |}.

(** The Reason header of the BYE never depends on the REL. *)
Lemma translateRELToBye_reason (isupMessage : Isup.ISUPMessage)
    (rules : ProtocolTranslationRules) (context : TranslationContext) :
  headers (translateRELToBye isupMessage rules context) !! "Reason"
  = Some (reasonHeader 16).
Proof.
  unfold translateRELToBye, parseISUPCause. cbn [headers].
  rewrite lookup_insert_ne by discriminate.
  rewrite lookup_insert_ne by discriminate.
  apply lookup_insert_eq.
Qed.

(** C8 on the code: the cause parameter of the REL carries 17, as the
    ISUP handler's own parser reads it, and the BYE says cause 16, normal
    call clearing. *)
Theorem rel_cause_not_translated :
  Isup.parseCauseParameter (Isup.parameters relUserBusy) = Ok 17
  /\ reasonHeader 16 =
       "Q.850;cause=16;text=" +:+ dquote +:+ "Normal call clearing" +:+ dquote
  /\ forall rules context,
       method (translateRELToBye relUserBusy rules context) = "BYE"
       /\ headers (translateRELToBye relUserBusy rules context) !! "Reason"
          = Some (reasonHeader 16).
Proof.
  split; [vm_compute; reflexivity|]. split; [vm_compute; reflexivity|].
  intros rules context. split; [reflexivity|]. apply translateRELToBye_reason.
Qed.

End RelToBye.

(** ** SIP BYE *)

Section Bye.
Import Types SIPHandler.
Local Open Scope Z_scope.

Lemma terminateSession_gone (callId : option string) (h : Handler) :
  sessions (terminateSession callId h) !! callId = None.
Proof.
  unfold terminateSession. destruct (sessions h !! callId) eqn:E; cbn.
  - apply lookup_delete_eq.
  - exact E.
Qed.

Lemma terminateSession_emitted (callId : option string) (h : Handler) :
  emitted (terminateSession callId h) = emitted h
  \/ exists session,
       emitted (terminateSession callId h) = emitted h ++ [SessionTerminated session].
Proof.
  unfold terminateSession. destruct (sessions h !! callId); cbn; eauto.
Qed.

Definition isMessageOut (e : Event) : bool :=
  match e with MessageOut _ => true | _ => false end.

(** C9: a BYE makes [handleIncomingMessage] throw "Session not found",
    whether a session with its Call-ID exists or not: the session is
    removed before the response looks it up.  The state left is the one
    after [terminateSession], and no message has been sent. *)
Theorem bye_throws (parseSDP : string -> option RTPSession) (now : Z)
    (message : SIPMessage) (h : Handler) :
  method message = "BYE" ->
  let callId := headers message !! "Call-ID" in
  handleIncomingMessage parseSDP now message h
  = Raise ("Session not found: " +:+ orUndefined callId) (terminateSession callId h)
  /\ sessions (terminateSession callId h) !! callId = None
  /\ List.filter isMessageOut (emitted (terminateSession callId h))
     = List.filter isMessageOut (emitted h).
Proof.
  intros Hm callId. split; [|split].
  - unfold handleIncomingMessage. rewrite Hm.
    rewrite bool_decide_eq_false_2 by discriminate.
    rewrite bool_decide_eq_true_2 by reflexivity.
    unfold handleBye, sendResponse. fold callId.
    by rewrite terminateSession_gone.
  - apply terminateSession_gone.
  - destruct (terminateSession_emitted callId h) as [->|[session ->]]; [done|].
    rewrite List.filter_app. cbn. by rewrite app_nil_r.
Qed.

(** A handler with the session of an INVITE, and the BYE of that call. *)
Definition invite : SIPMessage :=
  {| method := "INVITE"; uri := "sip:5551002@localhost";
     headers := <["Call-ID" := "call-1"]> ∅; body := None |}.
Definition bye : SIPMessage :=
  {| method := "BYE"; uri := ""; headers := <["Call-ID" := "call-1"]> ∅; body := None |}.
Definition inCall : Handler :=
  handleInvite (fun _ => None) 0 invite
    {| sessions := ∅; isRunning := true; emitted := [] |}.

Lemma bye_throws_witness :
  handleIncomingMessage (fun _ => None) 1 bye inCall
  = Raise ("Session not found: " +:+ orUndefined (headers bye !! "Call-ID"))
          (terminateSession (headers bye !! "Call-ID") inCall)
  /\ sessions (terminateSession (headers bye !! "Call-ID") inCall)
       !! (headers bye !! "Call-ID") = None
  /\ List.filter isMessageOut (emitted (terminateSession (headers bye !! "Call-ID") inCall))
     = List.filter isMessageOut (emitted inCall).
Proof. apply (bye_throws (fun _ => None) 1 bye inCall). reflexivity. Defined.

(** The session of the call did exist before the BYE. *)
Lemma inCall_has_session :
  is_Some (sessions inCall !! Some "call-1").
Proof. vm_compute. eauto. Qed.

End Bye.

(** ** The NFAS manager *)

Module D := DChannel.
Module N := NFASManager.

Section GroupMap.

Lemma getGroup_Some (gid : Z) (gs : list N.NFASGroup) (g : N.NFASGroup) :
  N.getGroup gid gs = Some g -> g ∈ gs /\ N.groupId g = gid.
Proof.
  unfold N.getGroup. intros H. apply find_some in H as [Hin Hid].
  split; [by apply list_elem_of_In|]. by apply bool_decide_eq_true in Hid.
Qed.





Lemma getGroup_setGroup (g : N.NFASGroup) (gs : list N.NFASGroup) :
  N.getGroup (N.groupId g) (N.setGroup g gs) = Some g.
Proof.
  unfold N.getGroup. induction gs as [|g0 gs IH]; cbn [N.setGroup find].
  - by rewrite bool_decide_eq_true_2.
  - case_bool_decide as Hid; cbn [find].
    + by rewrite bool_decide_eq_true_2.
    + by rewrite bool_decide_eq_false_2.
Qed.

Lemma elem_of_setGroup_self (g : N.NFASGroup) (gs : list N.NFASGroup) :
  g ∈ N.setGroup g gs.
Proof.
  pose proof (getGroup_setGroup g gs) as H. by apply getGroup_Some in H as [H _].
Qed.

End GroupMap.

Section NfasInvariant.
Local Open Scope Z_scope.
Local Arguments D.buildLAPDFrame : simpl never.
Local Arguments D.parseQ931Message : simpl never.
Local Arguments D.buildQ931Message : simpl never.
Local Arguments D.parseLAPDFrame : simpl never.
Local Arguments N.deliver : simpl never.
Local Arguments N.performSwitchover : simpl never.
Local Arguments D.handleT203Timeout : simpl never.
Local Arguments D.handleT200Timeout : simpl never.














(** *** Handlers: stop and start *)





(** *** performSwitchover *)





(** *** What a handler method does, as the manager sees it *)


















(** *** The listeners *)






(** *** The steps of the manager *)



















End NfasInvariant.

(** *** One group of two spans *)

Section NfasScenario.
Local Open Scope Z_scope.

Definition groupConfig : N.NFASGroupConfig :=
  {| N.gc_groupId := 7; N.gc_primarySpan := 1; N.gc_backupSpans := [2];
     N.gc_loadBalancing := false; N.gc_ces := 0 |}.

Definition nfasConfig : N.NFASConfiguration :=
  {| N.enabled := true; N.groups_config := [groupConfig];
     N.switchoverTimeout := 5000; N.heartbeatInterval := 1000;
     N.maxSwitchoverAttempts := 3 |}.

(** The manager after [start]. *)
Definition started : N.Manager :=
  default (N.new nfasConfig) (N.run [(0, N.InStart)] (N.new nfasConfig)).






End NfasScenario.

(** ** The retransmission loop does not end *)

Section Retransmission.
Import DChannel.
Local Open Scope Z_scope.
Local Arguments buildLAPDFrame : simpl never.
Local Arguments parseQ931Message : simpl never.
Local Arguments buildQ931Message : simpl never.
Local Arguments parseLAPDFrame : simpl never.












End Retransmission.

(** ** The event of a completed switchover *)

Section SwitchoverEvent.
Local Open Scope Z_scope.

(** An event that is no ['switchoverCompleted'], or one whose previous
    span is its new active span. *)
Definition sameSpan (e : N.Event) : Prop :=
  match e with
  | N.SwitchoverCompleted _ previousSpan newActiveSpan _ => previousSpan = newActiveSpan
  | _ => True
  end.

Lemma relayFrames_emitted (h : D.DChannelHandler) (m : N.Manager) :
  exists events,
    N.emitted (N.relayFrames h m) = N.emitted m ++ events /\ Forall sameSpan events.
Proof.
  unfold N.relayFrames. generalize (D.emitted h). intros l. revert m.
  induction l as [|e l IH]; intros m; cbn [foldl].
  - exists []. by rewrite app_nil_r.
  - destruct (IH (match e with
                  | D.EvFrameOut frameData =>
                      N.emit (N.FrameOut (D.spanId (D.config h)) frameData) m
                  | _ => m
                  end)) as (events & -> & Hs).
    destruct e; try (by exists events).
    cbn. exists (N.FrameOut (D.spanId (D.config h)) frameData :: events).
    rewrite <- app_assoc. split; [done|]. by constructor.
Qed.

Lemma trySpans_emitted (now : Z) (reason : string) (candidates : list Z) :
  forall group m,
    exists events,
      N.emitted (N.trySpans now reason candidates group m) = N.emitted m ++ events
      /\ Forall sameSpan events.
Proof.
  induction candidates as [|spanId candidates IH]; intros group m; cbn [N.trySpans].
  - eexists [_]. split; [reflexivity|]. by repeat constructor.
  - destruct (N.spans group !! spanId); [|apply IH].
    assert (Hstop : exists events,
              N.emitted (snd (N.stopCurrent group m)) = N.emitted m ++ events
              /\ Forall sameSpan events).
    { unfold N.stopCurrent. destruct (N.spans group !! N.activeSpan group).
      - apply relayFrames_emitted.
      - exists []. by rewrite app_nil_r. }
    destruct (N.stopCurrent group m) as [group1 m1]. cbn [snd] in Hstop.
    destruct Hstop as (ev1 & He1 & Hs1).
    assert (Hdone : forall group2 m2 ev2,
              N.emitted m2 = N.emitted m ++ ev2 -> Forall sameSpan ev2 ->
              exists events,
                N.emitted
                  (N.emit (N.SwitchoverCompleted
                             (N.groupId (N.set_state N.active (N.set_activeSpan spanId group2)))
                             (N.activeSpan (N.set_state N.active (N.set_activeSpan spanId group2)))
                             spanId reason)
                     (match N.statistics
                              (N.putGroup (N.set_state N.active (N.set_activeSpan spanId group2)) m2)
                            !! N.groupId (N.set_state N.active (N.set_activeSpan spanId group2))
                      with
                      | Some stats =>
                          N.set_statistics
                            (<[N.groupId (N.set_state N.active (N.set_activeSpan spanId group2))
                               := N.recordSwitchover now spanId stats]>
                               (N.statistics
                                  (N.putGroup (N.set_state N.active (N.set_activeSpan spanId group2)) m2)))
                            (N.putGroup (N.set_state N.active (N.set_activeSpan spanId group2)) m2)
                      | None => N.putGroup (N.set_state N.active (N.set_activeSpan spanId group2)) m2
                      end))
                = N.emitted m ++ events
                /\ Forall sameSpan events).
    { intros group2 m2 ev2 He2 Hs2. cbn.
      exists (ev2 ++ [N.SwitchoverCompleted (N.groupId group2) spanId spanId reason]).
      split.
      - destruct (N.statistics m2 !! N.groupId group2); cbn; by rewrite He2, app_assoc.
      - apply Forall_app. split; [done|]. by repeat constructor. }
    assert (Hnext : exists events,
              N.emitted (N.trySpans now reason candidates group1 m1)
              = N.emitted m ++ events /\ Forall sameSpan events).
    { destruct (IH group1 m1) as (ev & -> & Hs). exists (ev1 ++ ev).
      rewrite He1, app_assoc. split; [done|]. by apply Forall_app. }
    destruct (N.spans group1 !! spanId) as [handler|].
    + destruct (D.isEstablished handler); [by eapply Hdone|].
      destruct (D.start (N.quiet handler)) as [h|e]; [|exact Hnext].
      destruct (relayFrames_emitted h m1) as (ev2 & He2 & Hs2).
      eapply Hdone.
      * by rewrite He2, He1, <- app_assoc.
      * by apply Forall_app.
    + by eapply Hdone.
Qed.

(** Whatever [performSwitchover] is called on, each ['switchoverCompleted']
    event it emits carries the new active span as the previous span too. *)
Theorem switchover_event_same_span (now gid : Z) (reason : string) (m : N.Manager) :
  exists events,
    N.emitted (N.performSwitchover now gid reason m) = N.emitted m ++ events
    /\ Forall sameSpan events.
Proof.
  unfold N.performSwitchover.
  destruct (N.getGroup gid (N.groups m)) as [group|].
  - destruct (List.filter _ _) as [|c cs].
    + eexists [_]. split; [reflexivity|]. by repeat constructor.
    + apply trySpans_emitted.
  - exists []. by rewrite app_nil_r.
Qed.

End SwitchoverEvent.

(** ** The round trips and the send path on concrete octets *)

Section Examples.
Import JS DChannel.
Local Open Scope Z_scope.


(** A SETUP message with a call reference of two octets, flag clear, one
    single-octet element and one element of two octets of data. *)
Lemma q931_roundtrip_witness :
  exists message,
    parseQ931Message [8; 2; 0; 1; 5; 0xA1; 4; 2; 0x88; 0x90] = Ok message
    /\ buildQ931Message message = [8; 2; 0; 1; 5; 0xA1; 4; 2; 0x88; 0x90].
Proof.
  apply (q931_roundtrip 8 [0; 1] 5 [0xA1; 4; 2; 0x88; 0x90]).
  - repeat constructor; unfold octet; lia.
  - vm_compute. reflexivity.
  - apply wf_single; [reflexivity|].
    apply (wf_variable 4 [0x88; 0x90] []); [reflexivity|unfold octet; simpl; lia|].
    apply wf_end.
Defined.


End Examples.
